(** * The RPG assistant callable: request handling and flow orchestration

    A shallow embedding of the two revisions of the Cloud Function that
    forwards a prompt to a generative model:

    - [V3]: [functions/src/index.ts] ([rpgAssistantFlow], [callRpgAssistantV3]);
    - [V2]: the earlier revision ([rpgAssistantFlow], [callRpgAssistantV2]).

    Handlers are [async] functions that log, call the model client and
    either return a value or throw.  They are embedded in a small state and
    exception monad whose state is the provider's world together with the
    trace of observable events (console records, flow runs, model calls). *)

From Stdlib Require Import String Ascii List Bool ZArith QArith Lia.
Import ListNotations.
Local Close Scope Q_scope.
Local Open Scope string_scope.

Set Implicit Arguments.
Set Warnings "-register-all".

(* ================================================================= *)
(** ** JavaScript values carried by the callable transport *)

Module Js.

(** The payload of a callable request is decoded JSON; [JUndefined] is
    what reading an absent property yields.  A member of a library object
    can also be a function, given here by what calling it without
    arguments returns. *)
Inductive JsValue : Type :=
| JUndefined
| JNull
| JBoolean (b : bool)
| JNumber (q : Q)
| JString (s : string)
| JArray (items : list JsValue)
| JObject (props : list (string * JsValue))
| JFunction (result : JsValue).

(** [!v]: the falsy values are [undefined], [null], [false], zero and
    the empty string. *)
Definition falsy (v : JsValue) : bool :=
  match v with
  | JUndefined | JNull => true
  | JBoolean b => negb b
  | JNumber q => (Qnum q =? 0)%Z
  | JString s => match s with EmptyString => true | String _ _ => false end
  | JArray _ | JObject _ | JFunction _ => false
  end.

Inductive TypeTag : Type :=
| t_undefined | t_object | t_boolean | t_number | t_string | t_function.

(** [typeof v]; note [typeof null === 'object']. *)
Definition typeof (v : JsValue) : TypeTag :=
  match v with
  | JUndefined => t_undefined
  | JNull | JArray _ | JObject _ => t_object
  | JBoolean _ => t_boolean
  | JNumber _ => t_number
  | JString _ => t_string
  | JFunction _ => t_function
  end.

Definition is_string_tag (t : TypeTag) : bool :=
  match t with t_string => true | _ => false end.

(** An object is the list of its own properties in insertion order; a
    decoded object has no repeated key. *)
Fixpoint lookup (k : string) (props : list (string * JsValue)) : JsValue :=
  match props with
  | [] => JUndefined
  | (k', v) :: rest => if String.eqb k k' then v else lookup k rest
  end.

(** Property read [v.k] as used by a destructuring pattern on a value
    that is neither [null] nor [undefined]: own properties of objects,
    [undefined] for everything else the handlers look for. *)
Definition get (v : JsValue) (k : string) : JsValue :=
  match v with
  | JObject props => lookup k props
  | _ => JUndefined
  end.

Definition nullish (v : JsValue) : bool :=
  match v with JUndefined | JNull => true | _ => false end.

(** A template literal with one substitution of a string value. *)
Definition template (before : string) (x : string) (after : string) : string :=
  before ++ x ++ after.

Definition dquote : string := String (ascii_of_nat 34) EmptyString.
Definition newline : string := String (ascii_of_nat 10) EmptyString.

(** What a template literal makes of a plain object, whatever its
    members: [String({...})]. *)
Definition object_Object : string := "[object Object]".

(** [needle] occurs in [hay]. *)
Definition occurs_in (needle hay : string) : bool :=
  match String.index 0 needle hay with Some _ => true | None => false end.

End Js.
Export Js.

(* ================================================================= *)
(** ** Errors, outcomes and the event trace *)

(** The three codes the handlers raise through [HttpsError]. *)
Inductive FunctionsErrorCode : Type :=
| unauthenticated
| invalid_argument
| internal.

(** What a [throw] carries.  [HttpsError] and every other [Error]
    instance have a message; anything else can be thrown as a bare value. *)
Inductive Thrown : Type :=
| HttpsError (code : FunctionsErrorCode) (message : string)
| ErrorObject (name : string) (message : string)
| ThrownValue (v : JsValue).

(** [error instanceof Error]. *)
Definition instanceof_Error (e : Thrown) : bool :=
  match e with
  | HttpsError _ _ | ErrorObject _ _ => true
  | ThrownValue _ => false
  end.

Definition error_message (e : Thrown) : string :=
  match e with
  | HttpsError _ m | ErrorObject _ m => m
  | ThrownValue _ => EmptyString
  end.

Inductive Outcome (A : Type) : Type :=
| Returned (a : A)
| Threw (e : Thrown).
Arguments Threw {A} e.

(** The [TypeError] of calling a member that is not a function. *)
Definition not_a_function : Thrown :=
  ErrorObject "TypeError" "response.text is not a function".

(** [member()]: a call without arguments; only a function can be called. *)
Definition call_result (member : JsValue) : Outcome JsValue :=
  match member with
  | JFunction result => Returned result
  | _ => Threw not_a_function
  end.

(** [config] of a model call. *)
Record GenerationConfig : Type := mkConfig {
  temperature : Q;
  maxOutputTokens : Z
}.

(** The argument of [ai.generate]: the prompt, the separately threaded
    history ([None] for [undefined]) and the generation parameters. *)
Record GenerateOptions : Type := mkOptions {
  prompt : string;
  history : option (list JsValue);
  config : GenerationConfig
}.

(** What the model client resolves to: its [text] member, which V3
    calls as a method ([response.text()]) and V2 reads as a property
    ([response.text]), next to whatever auxiliary data the provider
    attaches.  Which of the two the member is depends on the client. *)
Record GenerateResponse : Type := mkResponse {
  text : JsValue;
  auxiliary : JsValue
}.

(** The object literal [{ userPrompt, conversationHistory }] handed to
    [rpgAssistantFlow.run]. *)
Record RawInput : Type := mkRaw {
  raw_userPrompt : JsValue;
  raw_conversationHistory : JsValue
}.

(** The flow body's parameter type
    [{ userPrompt: string, conversationHistory?: any[] }]. *)
Record FlowInput : Type := mkInput {
  userPrompt : string;
  conversationHistory : option (list JsValue)
}.

Inductive LogLevel : Type := level_log | level_error.

Inductive LogArg : Type :=
| arg_text (s : string)
| arg_value (v : JsValue)
| arg_thrown (e : Thrown).

Inductive Event : Type :=
| Console (lvl : LogLevel) (args : list LogArg)
| FlowRun (input : RawInput)
| ModelCall (opts : GenerateOptions).

(** [request.auth] when present. *)
Record AuthData : Type := mkAuth { uid : string }.

(** [CallableRequest]: the identity attached by the transport, if any,
    and the decoded payload. *)
Record CallableRequest : Type := mkRequest {
  auth : option AuthData;
  data : JsValue
}.

(** The success payload [{ response: ... }]. *)
Record ResponseEnvelope : Type := mkEnvelope { response : JsValue }.

Definition is_console (e : Event) : bool :=
  match e with Console _ _ => true | _ => false end.

(** The model calls of a trace, in order. *)
Fixpoint model_calls (tr : list Event) : list GenerateOptions :=
  match tr with
  | [] => []
  | ModelCall o :: rest => o :: model_calls rest
  | _ :: rest => model_calls rest
  end.

(** The flow runs of a trace, in order. *)
Fixpoint flow_runs (tr : list Event) : list RawInput :=
  match tr with
  | [] => []
  | FlowRun i :: rest => i :: flow_runs rest
  | _ :: rest => flow_runs rest
  end.

(** A trace with its console records removed: what the handler did
    besides diagnostics. *)
Definition without_console (tr : list Event) : list Event :=
  filter (fun e => negb (is_console e)) tr.

(* ================================================================= *)
(** ** The effect monad of an invocation *)

Section Effects.

Variable World : Type.

(** The provider's state and the events observed so far. *)
Record State : Type := mkState {
  world : World;
  trace : list Event
}.

Definition M (A : Type) : Type := State -> Outcome A * State.

Definition ret {A} (a : A) : M A := fun s => (Returned a, s).

Definition bind {A B} (m : M A) (k : A -> M B) : M B :=
  fun s =>
    match m s with
    | (Returned a, s') => k a s'
    | (Threw e, s') => (Threw e, s')
    end.

Definition throw {A} (e : Thrown) : M A := fun s => (Threw e, s).

(** [try { m } catch (error) { h error }]. *)
Definition try_catch {A} (m : M A) (h : Thrown -> M A) : M A :=
  fun s =>
    match m s with
    | (Returned a, s') => (Returned a, s')
    | (Threw e, s') => h e s'
    end.

(** An expression that returns or throws without touching the state. *)
Definition settle {A} (o : Outcome A) : M A := fun s => (o, s).

Definition emit (ev : Event) : M unit :=
  fun s => (Returned tt, mkState (world s) (trace s ++ [ev])).

Definition console_log (args : list LogArg) : M unit :=
  emit (Console level_log args).

Definition console_error (args : list LogArg) : M unit :=
  emit (Console level_error args).

(** The generative-model client, an external collaborator: given the
    options of a call and the provider's state it resolves to a response
    or throws, and moves the provider to its next state. *)
Definition ModelClient : Type :=
  GenerateOptions -> World -> Outcome GenerateResponse * World.

(** [await ai.generate(opts)]. *)
Definition ai_generate (client : ModelClient) (opts : GenerateOptions)
  : M GenerateResponse :=
  fun s =>
    let (r, w') := client opts (world s) in
    (r, mkState w' (trace s ++ [ModelCall opts])).

(** A fresh invocation: nothing observed yet. *)
Definition start (w : World) : State := mkState w [].

End Effects.

Arguments ret {World A} a.
Arguments throw {World A} e.
Arguments settle {World A} o.
Arguments emit {World} ev.
Arguments console_log {World} args.
Arguments console_error {World} args.
Arguments start {World} w.

Declare Scope eff_scope.
Delimit Scope eff_scope with eff.
Notation "x <- m ;; k" := (bind m (fun x => k))
  (at level 61, m at next level, right associativity) : eff_scope.
Notation "m ;; k" := (bind m (fun _ => k))
  (at level 61, right associativity) : eff_scope.
Local Open Scope eff_scope.

(* ================================================================= *)
(** ** The flow contract shared by both revisions *)

(** [z.string()]. *)
Definition z_string (v : JsValue) : option string :=
  match v with JString s => Some s | _ => None end.

(** [z.enum(['user', 'model'])]. *)
Definition z_role (v : JsValue) : bool :=
  match v with
  | JString r => String.eqb r "user" || String.eqb r "model"
  | _ => false
  end.

Definition is_object (v : JsValue) : bool :=
  match v with JObject _ => true | _ => false end.

(** [z.object({ text: z.string() })]. *)
Definition z_part (v : JsValue) : bool :=
  is_object v &&
  match z_string (get v "text") with Some _ => true | None => false end.

(** [z.object({ role: z.enum([...]), parts: z.array(z.object({...})) })]. *)
Definition z_turn (v : JsValue) : bool :=
  is_object v && z_role (get v "role") &&
  match get v "parts" with
  | JArray parts => forallb z_part parts
  | _ => false
  end.

(** [z.array(turn).optional()]: absent, or an array of turns, which is
    handed on as it is. *)
Definition z_history (v : JsValue) : option (option (list JsValue)) :=
  match v with
  | JUndefined => Some None
  | JArray turns => if forallb z_turn turns then Some (Some turns) else None
  | _ => None
  end.

(** [inputSchema] of the flow. *)
Definition inputSchema (raw : RawInput) : option FlowInput :=
  match z_string (raw_userPrompt raw), z_history (raw_conversationHistory raw) with
  | Some p, Some h => Some (mkInput p h)
  | _, _ => None
  end.

(** [outputSchema] of the flow: [z.string()]. *)
Definition outputSchema (v : JsValue) : option string := z_string v.

(** The error a flow raises when a value does not fit its schema. *)
Definition schema_violation : Thrown :=
  ErrorObject "GenkitError" "Schema validation failed.".

(** Modelled from the spec: the record [InferenceResult], [{ text: string }],
    that a run of the flow yields.  The runner belongs to the Genkit
    library, which is not part of the repository. *)
Record InferenceResult : Type := mkResult { result_text : string }.

(** The record as the JavaScript object it is. *)
Definition result_value (r : InferenceResult) : JsValue :=
  JObject [("text", JString (result_text r))].

(** [`${r}`] for the record: it is a plain object. *)
Definition string_of_result (r : InferenceResult) : string := object_Object.

(** Modelled from the spec: the runner behind [ai.defineFlow(...).run],
    which belongs to the Genkit library and is not part of the repository.
    The flow "MUST declare and enforce this schema as its own contract
    boundary" and [run(request) -> InferenceResult]: the input is checked
    against [inputSchema], the body runs, its output is checked against
    [outputSchema], and the run yields the record around that output. *)
Definition defineFlow {World : Type}
  (input_schema : RawInput -> option FlowInput)
  (output_schema : JsValue -> option string)
  (body : FlowInput -> M World JsValue) (raw : RawInput)
  : M World InferenceResult :=
  emit (FlowRun raw) ;;
  match input_schema raw with
  | None => throw schema_violation
  | Some input =>
      out <- body input ;;
      match output_schema out with
      | None => throw schema_violation
      | Some s => ret (mkResult s)
      end
  end.

(** The thrown [TypeError] of [const { ... } = v] on [null] or [undefined]. *)
Definition destructure_error : Thrown :=
  ErrorObject "TypeError" "Cannot destructure property 'userPrompt' of 'request.data'.".

(** [const { userPrompt, conversationHistory } = v; k]. *)
Definition destructure {World A : Type} (v : JsValue)
  (k : JsValue -> JsValue -> M World A) : M World A :=
  if nullish v then throw destructure_error
  else k (get v "userPrompt") (get v "conversationHistory").

(** The string a value narrowed by [typeof v === 'string'] stands for. *)
Definition narrowed_string (v : JsValue) : string :=
  match v with JString s => s | _ => EmptyString end.

(* ================================================================= *)
(** ** Revision V3: [functions/src/index.ts] *)

Module V3.
Section Client.

Variable World : Type.
Variable client : ModelClient World.

Definition persona : string :=
  "You are Bastion, a helpful assistant for the Tangent SFF RPG.".

(** The body given to [ai.defineFlow]. *)
Definition rpgAssistant (input : FlowInput) : M World JsValue :=
  let userPrompt := userPrompt input in
  let conversationHistory := conversationHistory input in
  let fullPrompt := persona in
  response <- ai_generate client
    {| prompt := fullPrompt;
       history := conversationHistory;
       config := {| temperature := (7 # 10)%Q; maxOutputTokens := 500 |} |} ;;
  settle (call_result (text response)).

(** [rpgAssistantFlow.run]. *)
Definition rpgAssistantFlow : RawInput -> M World InferenceResult :=
  defineFlow inputSchema outputSchema rpgAssistant.

Definition internal_message : string :=
  "An internal error occurred. Check function logs for debug trace.".

Definition callRpgAssistantV3 (request : CallableRequest) : M World ResponseEnvelope :=
  console_log [arg_text "Executing function version V3 (Clean Slate)..."] ;;
  match auth request with
  | None =>
      throw (HttpsError unauthenticated "The function requires authentication.")
  | Some _ =>
      destructure (data request) (fun userPrompt conversationHistory =>
        if falsy userPrompt || negb (is_string_tag (typeof userPrompt)) then
          throw (HttpsError invalid_argument
                   ("The function expects a valid " ++ dquote ++ "userPrompt"
                      ++ dquote ++ " string."))
        else
          try_catch
            (aiResponseText <- rpgAssistantFlow (mkRaw userPrompt conversationHistory) ;;
             let responsePayload :=
               {| response := JString (template EmptyString (string_of_result aiResponseText)
                                    EmptyString) |} in
             console_log [arg_text "Successfully prepared payload. Sending to client."] ;;
             ret responsePayload)
            (fun error =>
               console_error [arg_text "CRITICAL ERROR in V3:"; arg_thrown error] ;;
               throw (HttpsError internal internal_message)))
  end.

End Client.
End V3.

(* ================================================================= *)
(** ** Revision V2 *)

Module V2.
Section Client.

Variable World : Type.
Variable client : ModelClient World.

Definition indent : string := "        ".

Definition persona : string :=
  "You are Bastion, a helpful, creative, and knowledgeable assistant for the Tangent SFF RPG.".

Definition before_prompt : string :=
  persona ++ newline ++ indent ++ "The user's current request is: " ++ dquote.

Definition after_prompt : string :=
  dquote ++ newline ++ indent
    ++ "Please provide a concise, relevant, and creative response.".

(** The template literal bound to [fullPrompt]. *)
Definition fullPrompt (userPrompt : string) : string :=
  template before_prompt userPrompt after_prompt.

(** The body given to [ai.defineFlow]. *)
Definition rpgAssistant (input : FlowInput) : M World JsValue :=
  let userPrompt := userPrompt input in
  let conversationHistory := conversationHistory input in
  response <- ai_generate client
    {| prompt := fullPrompt userPrompt;
       history := conversationHistory;
       config := {| temperature := (7 # 10)%Q; maxOutputTokens := 500 |} |} ;;
  ret (text response).

(** [rpgAssistantFlow.run]. *)
Definition rpgAssistantFlow : RawInput -> M World InferenceResult :=
  defineFlow inputSchema outputSchema rpgAssistant.

Definition internal_message : string :=
  "An internal error occurred while processing your request. Check the function logs for details.".

Definition callRpgAssistantV2 (request : CallableRequest) : M World ResponseEnvelope :=
  console_log [arg_text "Executing function version 3.0..."] ;;
  match auth request with
  | None =>
      console_error [arg_text "Function call failed: Unauthenticated."] ;;
      throw (HttpsError unauthenticated "The AI assistant requires authentication.")
  | Some request_auth =>
      destructure (data request) (fun userPrompt conversationHistory =>
        if falsy userPrompt || negb (is_string_tag (typeof userPrompt)) then
          console_error [arg_text "Function call failed: Invalid userPrompt.";
                         arg_value (JObject [("data", data request)])] ;;
          throw (HttpsError invalid_argument
                   ("The function expects a valid " ++ dquote ++ "userPrompt"
                      ++ dquote ++ " string."))
        else
          console_log
            [arg_text (template "V2 function invoked by user " (uid request_auth)
                         (template (" with prompt: " ++ dquote)
                            (narrowed_string userPrompt) dquote))] ;;
          try_catch
            (aiResponse <- rpgAssistantFlow (mkRaw userPrompt conversationHistory) ;;
             console_log [arg_text "Successfully received response from AI flow."] ;;
             ret {| response := result_value aiResponse |})
            (fun error =>
               console_error [arg_text "CRITICAL: Error executing RPG Assistant Flow:";
                              arg_thrown error] ;;
               (if instanceof_Error error then
                  console_error [arg_text "Underlying error message:";
                                 arg_text (error_message error)]
                else ret tt) ;;
               throw (HttpsError internal internal_message)))
  end.

End Client.
End V2.

(* ================================================================= *)
(** ** How a flow run ends *)

Section FlowShape.

Variable World : Type.
Variable client : ModelClient World.

(** Both revisions give [ai.defineFlow] a body of the same shape: one
    model call whose options are computed from the input, then the
    [text] member of the response, called in V3 and read in V2. *)
Variable options_of : FlowInput -> GenerateOptions.
Variable take_text : JsValue -> Outcome JsValue.

Definition one_call_body (input : FlowInput) : M World JsValue :=
  response <- ai_generate client (options_of input) ;;
  settle (take_text (text response)).

(** The ways a run from state [s] can end. *)
Inductive run_ends (raw : RawInput) (s : State World)
  : Outcome InferenceResult * State World -> Prop :=
| input_rejected :
    inputSchema raw = None ->
    run_ends raw s
      (Threw schema_violation,
       mkState (world s) (trace s ++ [FlowRun raw]))
| client_threw input e w' :
    inputSchema raw = Some input ->
    client (options_of input) (world s) = (Threw e, w') ->
    run_ends raw s
      (Threw e,
       mkState w' (trace s ++ [FlowRun raw; ModelCall (options_of input)]))
| text_threw input resp w' e :
    inputSchema raw = Some input ->
    client (options_of input) (world s) = (Returned resp, w') ->
    take_text (text resp) = Threw e ->
    run_ends raw s
      (Threw e,
       mkState w' (trace s ++ [FlowRun raw; ModelCall (options_of input)]))
| output_rejected input resp w' out :
    inputSchema raw = Some input ->
    client (options_of input) (world s) = (Returned resp, w') ->
    take_text (text resp) = Returned out ->
    outputSchema out = None ->
    run_ends raw s
      (Threw schema_violation,
       mkState w' (trace s ++ [FlowRun raw; ModelCall (options_of input)]))
| answered input resp w' answer :
    inputSchema raw = Some input ->
    client (options_of input) (world s) = (Returned resp, w') ->
    take_text (text resp) = Returned (JString answer) ->
    run_ends raw s
      (Returned (mkResult answer),
       mkState w' (trace s ++ [FlowRun raw; ModelCall (options_of input)])).

End FlowShape.

(** The options each revision computes from the flow input. *)
Definition options_V3 (input : FlowInput) : GenerateOptions :=
  {| prompt := V3.persona;
     history := conversationHistory input;
     config := {| temperature := (7 # 10)%Q; maxOutputTokens := 500 |} |}.

Definition options_V2 (input : FlowInput) : GenerateOptions :=
  {| prompt := V2.fullPrompt (userPrompt input);
     history := conversationHistory input;
     config := {| temperature := (7 # 10)%Q; maxOutputTokens := 500 |} |}.

(** The fixed generation parameters. *)
Definition fixed_config : GenerationConfig :=
  {| temperature := (7 # 10)%Q; maxOutputTokens := 500 |}.

(** Sample collaborators and requests used to exercise the handlers. *)
Module Samples.

(** A client that answers with the prompt it was given and counts its calls. *)
Definition echo : ModelClient nat :=
  fun opts calls => (Returned (mkResponse (JString (prompt opts)) JNull), S calls).

(** The same client with [text] as a method, as V3 calls it. *)
Definition echo_method : ModelClient nat :=
  fun opts calls =>
    (Returned (mkResponse (JFunction (JString (prompt opts))) JNull), S calls).

(** A client that answers every prompt with the same sentence. *)
Definition narrator : ModelClient nat :=
  fun _ calls =>
    (Returned (mkResponse (JString "The Council of Nine.") JNull), S calls).

(** A client whose provider is down. *)
Definition unavailable : ModelClient nat :=
  fun _ calls => (Threw (ErrorObject "Error" "503 Service Unavailable"), S calls).

(** A client whose response carries an object where the text should be. *)
Definition structured : ModelClient nat :=
  fun _ calls =>
    (Returned (mkResponse (JObject [("candidates", JArray [JString "Nine"])]) JNull),
     S calls).

Definition turn (role words : string) : JsValue :=
  JObject [("role", JString role);
           ("parts", JArray [JObject [("text", JString words)]])].

Definition turns_ABC : list JsValue :=
  [turn "user" "Who rules the city?";
   turn "model" "The Council of Nine.";
   turn "user" "Where do they meet?"].

Definition payload (p : JsValue) (h : JsValue) : JsValue :=
  JObject [("userPrompt", p); ("conversationHistory", h)].

Definition alice : AuthData := mkAuth "alice".
Definition bob : AuthData := mkAuth "bob".

Definition capital : string := "Describe the capital city".

End Samples.

(* ================================================================= *)
(** ** Module start-up *)

(** What [genkit({ plugins: [googleAI({ apiKey })], model })] is given. *)
Record GenkitOptions : Type := mkGenkit {
  apiKey : option string;
  model : string
}.

(** [process.env.NAME] is a string or [undefined]; as a condition it
    holds for a string that is not empty. *)
Definition env_truthy (value : option string) : bool :=
  match value with
  | Some (String _ _) => true
  | Some EmptyString | None => false
  end.

Module Startup.
Section Env.

Variable World : Type.

(** The top-level statements of [functions/src/index.ts] that report on
    [GEMINI_API_KEY] and configure Genkit. *)
Definition V3_initialize (GEMINI_API_KEY : option string) : M World GenkitOptions :=
  (if env_truthy GEMINI_API_KEY then
     console_log
       [arg_text "V3: GEMINI_API_KEY environment variable was loaded successfully."]
   else
     console_error
       [arg_text "V3: CRITICAL FAILURE - GEMINI_API_KEY environment variable NOT found."]) ;;
  ret {| apiKey := GEMINI_API_KEY; model := "gemini-1.5-flash" |}.

(** The same statements in the V2 revision. *)
Definition V2_initialize (GEMINI_API_KEY : option string) : M World GenkitOptions :=
  (if env_truthy GEMINI_API_KEY then
     console_log
       [arg_text "SUCCESS: GEMINI_API_KEY environment variable was loaded."]
   else
     console_error
       [arg_text "CRITICAL FAILURE: GEMINI_API_KEY environment variable NOT found."]) ;;
  ret {| apiKey := GEMINI_API_KEY; model := "gemini-1.0-pro" |}.

End Env.
End Startup.

(** The console records of a trace at level [error]. *)
Definition error_records (tr : list Event) : list (list LogArg) :=
  flat_map (fun e => match e with
                     | Console level_error args => [args]
                     | _ => []
                     end) tr.

(* ================================================================= *)
(** ** Properties *)

Local Open Scope list_scope.
Unset Implicit Arguments.

Section FlowRuns.

Context {World : Type}.
Variable client : ModelClient World.
Variable options_of : FlowInput -> GenerateOptions.
Variable take_text : JsValue -> Outcome JsValue.

Lemma defineFlow_run_ends (raw : RawInput) (s : State World) :
  run_ends client options_of take_text raw s
    (defineFlow inputSchema outputSchema
       (one_call_body client options_of take_text) raw s).
Proof.
  unfold defineFlow, one_call_body, bind, emit, ai_generate, settle, ret, throw.
  cbn.
  destruct (inputSchema raw) as [input|] eqn:Hin; cbn.
  - destruct (client (options_of input) (world s)) as [[resp|e] w'] eqn:Hc; cbn.
    + destruct (take_text (text resp)) as [out|e] eqn:Htext; cbn.
      * destruct (outputSchema out) as [answer|] eqn:Hout;
          rewrite <- app_assoc; cbn [app].
        -- eapply answered; eauto.
           unfold outputSchema, z_string in Hout.
           destruct out; congruence.
        -- eapply output_rejected; eauto.
      * rewrite <- app_assoc; cbn [app].
        eapply text_threw; eauto.
    + rewrite <- app_assoc; cbn [app].
      eapply client_threw; eauto.
  - apply input_rejected; assumption.
Qed.

(** Framing: what was observed before a run changes neither its outcome
    nor the provider's next state, and the run only appends to it. *)
Lemma defineFlow_frame (raw : RawInput) (w : World) (tr : list Event) :
  let flow := defineFlow inputSchema outputSchema
                (one_call_body client options_of take_text) in
  fst (flow raw (mkState w tr)) = fst (flow raw (start w))
  /\ world (snd (flow raw (mkState w tr))) = world (snd (flow raw (start w)))
  /\ trace (snd (flow raw (mkState w tr)))
     = tr ++ trace (snd (flow raw (start w))).
Proof.
  unfold defineFlow, one_call_body, bind, emit, ai_generate, settle, ret,
    throw, start.
  cbn.
  destruct (inputSchema raw) as [input|]; cbn;
    [|repeat split; reflexivity].
  destruct (client (options_of input) w) as [[resp|e] w'];
    cbn; [|repeat split; now rewrite <- app_assoc].
  destruct (take_text (text resp)) as [out|e];
    cbn; [|repeat split; now rewrite <- app_assoc].
  destruct (outputSchema out); repeat split;
    now rewrite <- app_assoc.
Qed.

End FlowRuns.

Lemma V3_flow_shape {World : Type} (client : ModelClient World) :
  V3.rpgAssistantFlow client
  = defineFlow inputSchema outputSchema
      (one_call_body client options_V3 call_result).
Proof. reflexivity. Qed.

Lemma V2_flow_shape {World : Type} (client : ModelClient World) :
  V2.rpgAssistantFlow client
  = defineFlow inputSchema outputSchema
      (one_call_body client options_V2 (@Returned JsValue)).
Proof. reflexivity. Qed.

Lemma V3_run_ends {World : Type} (client : ModelClient World) raw s :
  run_ends client options_V3 call_result raw s (V3.rpgAssistantFlow client raw s).
Proof. rewrite V3_flow_shape. apply defineFlow_run_ends. Qed.

Lemma V2_run_ends {World : Type} (client : ModelClient World) raw s :
  run_ends client options_V2 (@Returned JsValue) raw s
    (V2.rpgAssistantFlow client raw s).
Proof. rewrite V2_flow_shape. apply defineFlow_run_ends. Qed.

(** The prompt values that pass the validation gate of the endpoint. *)
Lemma gate_passes_iff (v : JsValue) :
  falsy v || negb (is_string_tag (typeof v)) = false
  <-> exists c rest, v = JString (String c rest).
Proof.
  split.
  - destruct v as [| |b|q|s|items|props|f]; cbn;
      try (rewrite orb_true_r; discriminate); try discriminate.
    destruct s as [|c rest]; cbn; [discriminate|].
    intros _. exists c, rest. reflexivity.
  - intros (c & rest & ->). reflexivity.
Qed.

Lemma inputSchema_valid (p : string) (turns : list JsValue) :
  forallb z_turn turns = true ->
  inputSchema (mkRaw (JString p) (JArray turns)) = Some (mkInput p (Some turns)).
Proof. intros H. unfold inputSchema. cbn. rewrite H. reflexivity. Qed.

Lemma inputSchema_prompt (p : string) (h : JsValue) (input : FlowInput) :
  inputSchema (mkRaw (JString p) h) = Some input -> userPrompt input = p.
Proof.
  unfold inputSchema. cbn. destruct (z_history h); [|discriminate].
  intros [= <-]. reflexivity.
Qed.

(** What the claim calls an unusable prompt is what the gate refuses. *)
Lemma gate_refuses (v : JsValue) :
  v = JString EmptyString \/ nullish v = true \/ typeof v <> t_string ->
  falsy v || negb (is_string_tag (typeof v)) = true.
Proof.
  intros [-> | [H | H]]; [reflexivity| |].
  - destruct v; try discriminate; reflexivity.
  - destruct v; cbn; try reflexivity; try apply orb_true_r.
    now contradiction H.
Qed.

Lemma gate_accepts (p : string) :
  p <> EmptyString ->
  falsy (JString p) || negb (is_string_tag (typeof (JString p))) = false.
Proof. destruct p; [congruence|reflexivity]. Qed.

Lemma get_not_nullish (d : JsValue) (k : string) (v : JsValue) :
  get d k = v -> v <> JUndefined -> nullish d = false.
Proof. destruct d; cbn; intros; subst; congruence. Qed.

(** After the gates, the V3 endpoint is its flow followed by the envelope
    or by the collapse to [internal]. *)
Lemma V3_call_past_gates {World : Type} (client : ModelClient World)
      (a : AuthData) (d : JsValue) (p : string) (w : World) :
  get d "userPrompt" = JString p -> p <> EmptyString ->
  V3.callRpgAssistantV3 client (mkRequest (Some a) d) (start w)
  = let r := V3.rpgAssistantFlow client
               (mkRaw (JString p) (get d "conversationHistory"))
               (mkState w [Console level_log
                             [arg_text "Executing function version V3 (Clean Slate)..."]]) in
    match fst r with
    | Returned answer =>
        (Returned {| response := JString object_Object |},
         mkState (world (snd r))
           (trace (snd r)
              ++ [Console level_log
                    [arg_text "Successfully prepared payload. Sending to client."]]))
    | Threw e =>
        (Threw (HttpsError internal V3.internal_message),
         mkState (world (snd r))
           (trace (snd r)
              ++ [Console level_error
                    [arg_text "CRITICAL ERROR in V3:"; arg_thrown e]]))
    end.
Proof.
  intros Hp Hne.
  assert (Hd : nullish d = false)
    by (eapply get_not_nullish; [exact Hp|discriminate]).
  unfold V3.callRpgAssistantV3.
  remember (V3.rpgAssistantFlow client) as flow eqn:Hflow.
  unfold destructure, try_catch, bind, console_log, console_error, emit,
    throw, ret, start.
  cbn. rewrite Hd, Hp, (gate_accepts p Hne). cbn.
  destruct (flow _ _) as [[answer|e] s']; cbn;
    reflexivity.
Qed.

Lemma V2_call_past_gates {World : Type} (client : ModelClient World)
      (a : AuthData) (d : JsValue) (p : string) (w : World) :
  get d "userPrompt" = JString p -> p <> EmptyString ->
  V2.callRpgAssistantV2 client (mkRequest (Some a) d) (start w)
  = let r := V2.rpgAssistantFlow client
               (mkRaw (JString p) (get d "conversationHistory"))
               (mkState w
                  [Console level_log [arg_text "Executing function version 3.0..."];
                   Console level_log
                     [arg_text (template "V2 function invoked by user " (uid a)
                                  (template (" with prompt: " ++ dquote) p dquote))]]) in
    match fst r with
    | Returned answer =>
        (Returned {| response := result_value answer |},
         mkState (world (snd r))
           (trace (snd r)
              ++ [Console level_log
                    [arg_text "Successfully received response from AI flow."]]))
    | Threw e =>
        (Threw (HttpsError internal V2.internal_message),
         mkState (world (snd r))
           ((trace (snd r)
               ++ [Console level_error
                     [arg_text "CRITICAL: Error executing RPG Assistant Flow:";
                      arg_thrown e]])
              ++ (if instanceof_Error e
                  then [Console level_error
                          [arg_text "Underlying error message:";
                           arg_text (error_message e)]]
                  else [])))
    end.
Proof.
  intros Hp Hne.
  assert (Hd : nullish d = false)
    by (eapply get_not_nullish; [exact Hp|discriminate]).
  unfold V2.callRpgAssistantV2.
  remember (V2.rpgAssistantFlow client) as flow eqn:Hflow.
  unfold destructure, try_catch, bind, console_log, console_error, emit,
    throw, ret, start.
  cbn. rewrite Hd, Hp, (gate_accepts p Hne). cbn.
  destruct (flow _ _) as [[answer|e] s']; cbn;
    [reflexivity|].
  destruct (instanceof_Error e); cbn; [reflexivity|].
  now rewrite app_nil_r.
Qed.

Lemma model_calls_app (tr tr' : list Event) :
  model_calls (tr ++ tr') = model_calls tr ++ model_calls tr'.
Proof.
  induction tr as [|[lvl args|i|o] tr IH]; cbn; [reflexivity| | |];
    now rewrite IH.
Qed.

Section RunFacts.

Context {World : Type}.
Variable client : ModelClient World.
Variable options_of : FlowInput -> GenerateOptions.
Variable take_text : JsValue -> Outcome JsValue.

(** A run adds no model call when the input is refused and exactly one,
    with the options computed from the input, otherwise. *)
Lemma run_ends_calls raw s r :
  run_ends client options_of take_text raw s r ->
  match inputSchema raw with
  | None => model_calls (trace (snd r)) = model_calls (trace s)
  | Some input =>
      model_calls (trace (snd r)) = model_calls (trace s) ++ [options_of input]
  end.
Proof.
  intros H; destruct H as [Hin|input e w' Hin _|input resp w' e Hin _ _
                          |input resp w' out Hin _ _ _
                          |input resp w' answer Hin _ _];
    rewrite Hin; cbn [snd trace]; rewrite model_calls_app; cbn;
    [apply app_nil_r|reflexivity..].
Qed.

(** A run that returns has made one call, and returns the text taken
    from the response. *)
Lemma run_ends_returned raw s result s' :
  run_ends client options_of take_text raw s (Returned result, s') ->
  exists input resp,
    inputSchema raw = Some input
    /\ client (options_of input) (world s) = (Returned resp, world s')
    /\ take_text (text resp) = Returned (JString (result_text result))
    /\ trace s' = trace s ++ [FlowRun raw; ModelCall (options_of input)].
Proof.
  intros H. inversion H; subst. cbn. eauto 10.
Qed.

(** A run on accepted input whose client throws ends with that error. *)
Lemma run_ends_client_threw raw s r input e w' :
  run_ends client options_of take_text raw s r ->
  inputSchema raw = Some input ->
  client (options_of input) (world s) = (Threw e, w') ->
  fst r = Threw e.
Proof.
  intros H Hin Hc.
  destruct H as [Hin'|input' e' w'' Hin' Hc'|input' resp w'' e' Hin' Hc' _
                |input' resp w'' out Hin' Hc' _ _
                |input' resp w'' answer Hin' Hc' _];
    rewrite Hin in Hin'; try discriminate;
    injection Hin' as <-; rewrite Hc in Hc'; cbn; congruence.
Qed.

End RunFacts.

Section RunOutcomes.

Context {World : Type}.
Variable client : ModelClient World.
Variable options_of : FlowInput -> GenerateOptions.
Variable take_text : JsValue -> Outcome JsValue.

(** The way a run ends is fixed by the schema and the client. *)
Lemma run_ends_input_rejected raw s r :
  run_ends client options_of take_text raw s r ->
  inputSchema raw = None ->
  r = (Threw schema_violation, mkState (world s) (trace s ++ [FlowRun raw])).
Proof.
  intros H Hin; destruct H; congruence.
Qed.

Lemma run_ends_answered raw s r input resp w' answer :
  run_ends client options_of take_text raw s r ->
  inputSchema raw = Some input ->
  client (options_of input) (world s) = (Returned resp, w') ->
  take_text (text resp) = Returned (JString answer) ->
  r = (Returned (mkResult answer),
       mkState w' (trace s ++ [FlowRun raw; ModelCall (options_of input)])).
Proof.
  intros H Hin Hc Htext.
  destruct H as [Hin'|input' e' w'' Hin' Hc'|input' resp' w'' e' Hin' Hc' Htext'
                |input' resp' w'' out Hin' Hc' Htext' Hout
                |input' resp' w'' answer' Hin' Hc' Htext'];
    rewrite Hin in Hin'; try discriminate;
    injection Hin' as <-; rewrite Hc in Hc'; try discriminate;
    injection Hc' as <- <-; rewrite Htext in Htext'; try discriminate.
  - injection Htext' as <-. discriminate.
  - injection Htext' as <-. reflexivity.
Qed.

(** A run whose client resolves but whose [text] member cannot be taken
    ends with the error of taking it, after the model call. *)
Lemma run_ends_text_threw raw s r input resp w' e :
  run_ends client options_of take_text raw s r ->
  inputSchema raw = Some input ->
  client (options_of input) (world s) = (Returned resp, w') ->
  take_text (text resp) = Threw e ->
  r = (Threw e,
       mkState w' (trace s ++ [FlowRun raw; ModelCall (options_of input)])).
Proof.
  intros H Hin Hc Htext.
  destruct H as [Hin'|input' e' w'' Hin' Hc'|input' resp' w'' e' Hin' Hc' Htext'
                |input' resp' w'' out Hin' Hc' Htext' Hout
                |input' resp' w'' answer' Hin' Hc' Htext'];
    rewrite Hin in Hin'; try discriminate;
    injection Hin' as <-; rewrite Hc in Hc'; try discriminate;
    injection Hc' as <- <-; rewrite Htext in Htext'; try discriminate.
  injection Htext' as <-. reflexivity.
Qed.

End RunOutcomes.

(* ----------------------------------------------------------------- *)
(** *** The composite prompt *)

(** In V2 the prompt sent to the model is the persona framing followed by
    the caller's prompt between two fixed pieces of text. *)
Lemma V2_prompt_embeds_userPrompt {World : Type} (client : ModelClient World)
      (p : string) (h : JsValue) (input : FlowInput) (s : State World) :
  inputSchema (mkRaw (JString p) h) = Some input ->
  let r := V2.rpgAssistantFlow client (mkRaw (JString p) h) s in
  exists opts,
    model_calls (trace (snd r)) = model_calls (trace s) ++ [opts]
    /\ prompt opts = (V2.before_prompt ++ p ++ V2.after_prompt)%string
    /\ String.prefix V2.persona V2.before_prompt = true.
Proof.
  intros Hin r.
  pose proof (run_ends_calls _ _ _ _ _ _ (V2_run_ends client (mkRaw (JString p) h) s)) as H.
  rewrite Hin in H. exists (options_V2 input).
  split; [exact H|]. split; [|reflexivity].
  cbn. now rewrite (inputSchema_prompt p h input Hin).
Qed.

(** C1. The claim says the flow builds one composite instruction string
    embedding the persona framing and the caller's [userPrompt] and calls
    the model with it.  The V3 flow calls the model with the persona
    sentence alone, whatever the caller's prompt is: run on the prompt
    "Describe the capital city" it makes one model call whose prompt is
    [V3.persona], in which the caller's prompt does not occur. *)
Theorem V3_prompt_omits_userPrompt {World : Type} (client : ModelClient World)
        (w : World) :
  (forall raw s,
      model_calls (trace (snd (V3.rpgAssistantFlow client raw s)))
      = model_calls (trace s)
          ++ match inputSchema raw with
             | Some input =>
                 [{| prompt := V3.persona;
                     history := conversationHistory input;
                     config := fixed_config |}]
             | None => []
             end)
  /\ (let r := V3.rpgAssistantFlow client
                 (mkRaw (JString Samples.capital) JUndefined) (start w) in
      exists opts,
        model_calls (trace (snd r)) = [opts]
        /\ prompt opts = V3.persona
        /\ occurs_in Samples.capital (prompt opts) = false).
Proof.
  split.
  - intros raw s.
    pose proof (run_ends_calls _ _ _ _ _ _ (V3_run_ends client raw s)) as H.
    destruct (inputSchema raw); [exact H|now rewrite app_nil_r].
  - pose proof (run_ends_calls _ _ _ _ _ _
                  (V3_run_ends client
                     (mkRaw (JString Samples.capital) JUndefined) (start w))) as H.
    cbn in H. eexists. split; [exact H|]. split; reflexivity.
Qed.

(* ----------------------------------------------------------------- *)
(** *** The gates of the endpoint *)

(** Runs both handlers up to the point where the payload decides. *)
Ltac step_through_gates :=
  unfold V3.callRpgAssistantV3, V2.callRpgAssistantV2, destructure, bind,
    console_log, console_error, emit, throw, start;
  cbn.

(** C2. A call without an authenticated identity ends in the
    [unauthenticated] error whatever its payload is, and neither the
    flow nor the model client is reached: no flow run and no model call
    is recorded and the provider's state is untouched. *)
Theorem unauthenticated_call_is_refused {World : Type}
        (client : ModelClient World) (payload : JsValue) (w : World) :
  (let r := V3.callRpgAssistantV3 client (mkRequest None payload) (start w) in
   fst r = Threw (HttpsError unauthenticated
                    "The function requires authentication.")
   /\ flow_runs (trace (snd r)) = []
   /\ model_calls (trace (snd r)) = []
   /\ world (snd r) = w)
  /\
  (let r := V2.callRpgAssistantV2 client (mkRequest None payload) (start w) in
   fst r = Threw (HttpsError unauthenticated
                    "The AI assistant requires authentication.")
   /\ flow_runs (trace (snd r)) = []
   /\ model_calls (trace (snd r)) = []
   /\ world (snd r) = w).
Proof. repeat split. Qed.

(** C3, as amended. An authenticated call whose payload is not itself
    [null] or [undefined] and carries, as [userPrompt], the empty string,
    [null], nothing at all, or a value that is not a string ends in the
    [invalid-argument] error, and neither the flow nor the model client
    is reached. *)
Theorem unusable_prompt_is_refused {World : Type}
        (client : ModelClient World) (a : AuthData) (d : JsValue) (w : World) :
  nullish d = false ->
  get d "userPrompt" = JString EmptyString
  \/ nullish (get d "userPrompt") = true
  \/ typeof (get d "userPrompt") <> t_string ->
  (let r := V3.callRpgAssistantV3 client (mkRequest (Some a) d) (start w) in
   (exists message, fst r = Threw (HttpsError invalid_argument message))
   /\ flow_runs (trace (snd r)) = []
   /\ model_calls (trace (snd r)) = []
   /\ world (snd r) = w)
  /\
  (let r := V2.callRpgAssistantV2 client (mkRequest (Some a) d) (start w) in
   (exists message, fst r = Threw (HttpsError invalid_argument message))
   /\ flow_runs (trace (snd r)) = []
   /\ model_calls (trace (snd r)) = []
   /\ world (snd r) = w).
Proof.
  intros Hd Hbad. apply gate_refuses in Hbad.
  step_through_gates. rewrite Hd, Hbad. cbn.
  repeat split; eexists; reflexivity.
Qed.

Lemma unusable_prompt_is_refused_witness :
  let d := Samples.payload (JNumber (3 # 2)%Q) JUndefined in
  let r := V3.callRpgAssistantV3 Samples.echo
             (mkRequest (Some Samples.alice) d) (start 0) in
  nullish d = false
  /\ typeof (get d "userPrompt") <> t_string
  /\ (exists message, fst r = Threw (HttpsError invalid_argument message))
  /\ world (snd r) = 0.
Proof.
  cbv zeta.
  assert (Hd : nullish (Samples.payload (JNumber (3 # 2)%Q) JUndefined) = false)
    by reflexivity.
  assert (Hty : typeof (get (Samples.payload (JNumber (3 # 2)%Q) JUndefined)
                          "userPrompt") <> t_string)
    by (cbn; discriminate).
  destruct (unusable_prompt_is_refused Samples.echo Samples.alice
              (Samples.payload (JNumber (3 # 2)%Q) JUndefined) 0
              Hd (or_intror (or_intror Hty))) as [(Hres & _ & _ & Hw) _].
  split; [exact Hd|]. split; [exact Hty|]. split; [exact Hres|exact Hw].
Defined.

(** With a [null] payload there is no [userPrompt] to read, and the call
    does not end in [invalid-argument]. *)
Lemma null_payload_is_not_invalid_argument :
  let r := V3.callRpgAssistantV3 Samples.echo
             (mkRequest (Some Samples.alice) JNull) (start 0) in
  nullish (get JNull "userPrompt") = true
  /\ fst r = Threw destructure_error
  /\ ~ (exists message, fst r = Threw (HttpsError invalid_argument message)).
Proof.
  cbv zeta. split; [reflexivity|]. split; [reflexivity|].
  intros [message H]. discriminate H.
Qed.

(** The payload itself may be [null]: then the destructuring throws
    before the validation gate is reached. *)
Lemma null_payload_throws_TypeError {World : Type}
      (client : ModelClient World) (a : AuthData) (d : JsValue) (w : World) :
  nullish d = true ->
  fst (V3.callRpgAssistantV3 client (mkRequest (Some a) d) (start w))
  = Threw destructure_error
  /\ fst (V2.callRpgAssistantV2 client (mkRequest (Some a) d) (start w))
     = Threw destructure_error.
Proof.
  intros Hd.
  step_through_gates. rewrite Hd. split; reflexivity.
Qed.


(* ----------------------------------------------------------------- *)
(** *** The endpoint in terms of its flow *)

Lemma without_console_app (tr tr' : list Event) :
  without_console (tr ++ tr') = without_console tr ++ without_console tr'.
Proof. apply filter_app. Qed.

Lemma model_calls_without_console (tr : list Event) :
  model_calls (without_console tr) = model_calls tr.
Proof.
  induction tr as [|[lvl args|i|o] tr IH]; cbn; [reflexivity|assumption| |];
    now rewrite <- IH.
Qed.

Lemma flow_runs_without_console (tr : list Event) :
  flow_runs (without_console tr) = flow_runs tr.
Proof.
  induction tr as [|[lvl args|i|o] tr IH]; cbn; [reflexivity|assumption| |];
    now rewrite <- IH.
Qed.

(** An accepted call does what its flow does from a fresh state: the
    outcome is the envelope made from what the run yields, or [internal]; the
    provider ends in the same state; apart from console records the
    same events are observed. *)
Lemma V3_call_follows_flow {World : Type} (client : ModelClient World)
      (a : AuthData) (d : JsValue) (p : string) (w : World) :
  get d "userPrompt" = JString p -> p <> EmptyString ->
  let r := V3.callRpgAssistantV3 client (mkRequest (Some a) d) (start w) in
  let r0 := V3.rpgAssistantFlow client
              (mkRaw (JString p) (get d "conversationHistory")) (start w) in
  fst r = match fst r0 with
          | Returned _ => Returned {| response := JString object_Object |}
          | Threw _ => Threw (HttpsError internal V3.internal_message)
          end
  /\ world (snd r) = world (snd r0)
  /\ without_console (trace (snd r)) = without_console (trace (snd r0)).
Proof.
  intros Hp Hne. cbv zeta.
  rewrite (V3_call_past_gates client a d p w Hp Hne). cbv zeta.
  rewrite V3_flow_shape.
  match goal with |- context [defineFlow ?i ?o ?b ?raw (mkState w ?tr)] =>
    destruct (defineFlow_frame client options_V3 call_result raw w tr)
      as (Hfst & Hworld & Htrace);
    cbv zeta in Hfst, Hworld, Htrace;
    revert Hfst Hworld Htrace;
    generalize (defineFlow i o b raw (mkState w tr));
    generalize (defineFlow i o b raw (start w))
  end.
  intros [o0 s0] [o1 s1]. cbn [fst snd]. intros -> Hworld Htrace.
  destruct o0 as [answer|e]; cbn [fst snd world trace];
    rewrite Hworld, Htrace, !without_console_app; cbn;
    repeat split; apply app_nil_r.
Qed.

Lemma V2_call_follows_flow {World : Type} (client : ModelClient World)
      (a : AuthData) (d : JsValue) (p : string) (w : World) :
  get d "userPrompt" = JString p -> p <> EmptyString ->
  let r := V2.callRpgAssistantV2 client (mkRequest (Some a) d) (start w) in
  let r0 := V2.rpgAssistantFlow client
              (mkRaw (JString p) (get d "conversationHistory")) (start w) in
  fst r = match fst r0 with
          | Returned answer => Returned {| response := result_value answer |}
          | Threw _ => Threw (HttpsError internal V2.internal_message)
          end
  /\ world (snd r) = world (snd r0)
  /\ without_console (trace (snd r)) = without_console (trace (snd r0)).
Proof.
  intros Hp Hne. cbv zeta.
  rewrite (V2_call_past_gates client a d p w Hp Hne). cbv zeta.
  rewrite V2_flow_shape.
  match goal with |- context [defineFlow ?i ?o ?b ?raw (mkState w ?tr)] =>
    destruct (defineFlow_frame client options_V2 (@Returned JsValue) raw w tr)
      as (Hfst & Hworld & Htrace);
    cbv zeta in Hfst, Hworld, Htrace;
    revert Hfst Hworld Htrace;
    generalize (defineFlow i o b raw (mkState w tr));
    generalize (defineFlow i o b raw (start w))
  end.
  intros [o0 s0] [o1 s1]. cbn [fst snd]. intros -> Hworld Htrace.
  destruct o0 as [answer|e]; cbn [fst snd world trace];
    rewrite Hworld, Htrace, !without_console_app; cbn;
    [repeat split; apply app_nil_r|].
  destruct (instanceof_Error e); rewrite ?without_console_app; cbn;
    rewrite ?app_nil_r; repeat split.
Qed.

(** Every request is let through to the flow or refused before it. *)
Lemma accepted_or_refused (request : CallableRequest) :
  (exists a p, auth request = Some a
               /\ get (data request) "userPrompt" = JString p
               /\ p <> EmptyString)
  \/ (forall a p, auth request = Some a ->
                  get (data request) "userPrompt" = JString p ->
                  p = EmptyString).
Proof.
  destruct (auth request) as [a|]; [|right; discriminate].
  destruct (get (data request) "userPrompt") as [| |b|q|p|items|props|f];
    try (right; discriminate).
  destruct p as [|c rest]; [right; congruence|].
  left. exists a, (String c rest). repeat split; discriminate.
Qed.

(** A request that is not let through ends in an error before the flow:
    nothing but console records is observed. *)
Lemma refused_before_flow {World : Type} (client : ModelClient World)
      (request : CallableRequest) (w : World) :
  (forall a p, auth request = Some a ->
               get (data request) "userPrompt" = JString p ->
               p = EmptyString) ->
  (let r := V3.callRpgAssistantV3 client request (start w) in
   (exists e, fst r = Threw e)
   /\ without_console (trace (snd r)) = [] /\ world (snd r) = w)
  /\
  (let r := V2.callRpgAssistantV2 client request (start w) in
   (exists e, fst r = Threw e)
   /\ without_console (trace (snd r)) = [] /\ world (snd r) = w).
Proof.
  intros Hnot. destruct request as [au d]. cbn in Hnot.
  step_through_gates.
  destruct au as [a|]; cbn; [|repeat split; eexists; reflexivity].
  destruct (nullish d) eqn:Hd; cbn; [repeat split; eexists; reflexivity|].
  destruct (falsy (get d "userPrompt")
            || negb (is_string_tag (typeof (get d "userPrompt")))) eqn:Hgate;
    cbn; [repeat split; eexists; reflexivity|].
  apply gate_passes_iff in Hgate. destruct Hgate as (c & rest & Hp).
  specialize (Hnot a _ eq_refl Hp). discriminate.
Qed.

Lemma without_console_nil_calls (tr : list Event) :
  without_console tr = [] -> model_calls tr = [] /\ flow_runs tr = [].
Proof.
  intros H. rewrite <- model_calls_without_console, <- flow_runs_without_console.
  rewrite H. split; reflexivity.
Qed.

(* ----------------------------------------------------------------- *)
(** *** Failures of the flow *)

(** C4. When the flow fails on an accepted call, in particular when the
    model client throws, with whatever error [e], the endpoint throws the
    [internal] error with its fixed message: the result is the same for
    every [e] and carries neither the error object nor its message. *)
Theorem flow_failure_collapses_to_internal {World : Type}
        (client : ModelClient World) (a : AuthData) (d : JsValue) (p : string)
        (w : World) (e : Thrown) :
  get d "userPrompt" = JString p -> p <> EmptyString ->
  let raw := mkRaw (JString p) (get d "conversationHistory") in
  let request := mkRequest (Some a) d in
  (fst (V3.rpgAssistantFlow client raw (start w)) = Threw e
   \/ (exists input w', inputSchema raw = Some input
                        /\ client (options_V3 input) w = (Threw e, w')) ->
   fst (V3.callRpgAssistantV3 client request (start w))
   = Threw (HttpsError internal V3.internal_message))
  /\
  (fst (V2.rpgAssistantFlow client raw (start w)) = Threw e
   \/ (exists input w', inputSchema raw = Some input
                        /\ client (options_V2 input) w = (Threw e, w')) ->
   fst (V2.callRpgAssistantV2 client request (start w))
   = Threw (HttpsError internal V2.internal_message)).
Proof.
  intros Hp Hne raw request. subst request.
  destruct (V3_call_follows_flow client a d p w Hp Hne) as (H3 & _).
  destruct (V2_call_follows_flow client a d p w Hp Hne) as (H2 & _).
  cbv zeta in H3, H2. fold raw in H3, H2.
  split; intros Hfail.
  - assert (Hflow : fst (V3.rpgAssistantFlow client raw (start w)) = Threw e).
    { destruct Hfail as [Hflow | (input & w' & Hin & Hc)]; [exact Hflow|].
      exact (run_ends_client_threw client options_V3 call_result raw (start w) _ input e w'
               (V3_run_ends client raw (start w)) Hin Hc). }
    rewrite H3, Hflow. reflexivity.
  - assert (Hflow : fst (V2.rpgAssistantFlow client raw (start w)) = Threw e).
    { destruct Hfail as [Hflow | (input & w' & Hin & Hc)]; [exact Hflow|].
      exact (run_ends_client_threw client options_V2 (@Returned JsValue) raw (start w) _ input e w'
               (V2_run_ends client raw (start w)) Hin Hc). }
    rewrite H2, Hflow. reflexivity.
Qed.

Lemma flow_failure_collapses_to_internal_witness :
  let d := Samples.payload (JString Samples.capital) JUndefined in
  fst (V3.callRpgAssistantV3 Samples.unavailable
         (mkRequest (Some Samples.alice) d) (start 0))
  = Threw (HttpsError internal V3.internal_message)
  /\ fst (V2.callRpgAssistantV2 Samples.unavailable
            (mkRequest (Some Samples.alice) d) (start 0))
     = Threw (HttpsError internal V2.internal_message).
Proof.
  cbv zeta.
  assert (Hne : Samples.capital <> EmptyString) by discriminate.
  destruct (flow_failure_collapses_to_internal Samples.unavailable
              Samples.alice
              (Samples.payload (JString Samples.capital) JUndefined)
              Samples.capital 0
              (ErrorObject "Error" "503 Service Unavailable")
              eq_refl Hne) as [H3 H2].
  split; [apply H3|apply H2]; left; reflexivity.
Defined.

(* ----------------------------------------------------------------- *)
(** *** The success envelope *)

Lemma call_result_returned (member out : JsValue) :
  call_result member = Returned out -> member = JFunction out.
Proof. destruct member; cbn; congruence. Qed.

(** In V3 the template literal makes a string of whatever the run
    yielded: every envelope holds the same string. *)
Lemma V3_success_response_is_a_string {World : Type}
      (client : ModelClient World) (request : CallableRequest) (w : World)
      (env : ResponseEnvelope) :
  fst (V3.callRpgAssistantV3 client request (start w)) = Returned env ->
  response env = JString object_Object.
Proof.
  destruct (accepted_or_refused request) as [(a & p & Ha & Hp & Hne) | Hnot].
  - destruct request as [au d]. cbn in Ha, Hp. subst au.
    destruct (V3_call_follows_flow client a d p w Hp Hne) as (H3 & _).
    cbv zeta in H3. rewrite H3.
    destruct (fst (V3.rpgAssistantFlow _ _ _)) as [result|e];
      intros [= <-]. reflexivity.
  - destruct (refused_before_flow client request w Hnot)
      as [((e3 & H3) & _) _].
    intros H; congruence.
Qed.

(** C5. The claim says the [response] field of every returned envelope
    is a primitive string, never a nested object.  The V2 endpoint puts
    the record a run yields into the envelope as it is: whenever it
    returns, [response] is an object and not a string.  (V3 makes a
    string of it first: [V3_success_response_is_a_string].) *)
Theorem V2_success_response_is_an_object {World : Type}
        (client : ModelClient World) (request : CallableRequest) (w : World)
        (env : ResponseEnvelope) :
  fst (V2.callRpgAssistantV2 client request (start w)) = Returned env ->
  typeof (response env) = t_object
  /\ (exists result, response env = result_value result)
  /\ forall s, response env <> JString s.
Proof.
  destruct (accepted_or_refused request) as [(a & p & Ha & Hp & Hne) | Hnot].
  - destruct request as [au d]. cbn in Ha, Hp. subst au.
    destruct (V2_call_follows_flow client a d p w Hp Hne) as (H2 & _).
    cbv zeta in H2. rewrite H2.
    destruct (fst (V2.rpgAssistantFlow _ _ _)) as [result|e];
      intros [= <-]. cbn.
    split; [reflexivity|]. split; [now exists result|discriminate].
  - destruct (refused_before_flow client request w Hnot)
      as [_ ((e2 & H2) & _)].
    intros H; congruence.
Qed.

Lemma V2_success_response_is_an_object_witness :
  let request := mkRequest (Some Samples.alice)
                   (Samples.payload (JString Samples.capital) JUndefined) in
  let env := {| response := result_value (mkResult "The Council of Nine.") |} in
  fst (V2.callRpgAssistantV2 Samples.narrator request (start 0)) = Returned env
  /\ typeof (response env) = t_object
  /\ forall s, response env <> JString s.
Proof.
  cbv zeta.
  assert (H : fst (V2.callRpgAssistantV2 Samples.narrator
                     (mkRequest (Some Samples.alice)
                        (Samples.payload (JString Samples.capital) JUndefined))
                     (start 0))
              = Returned {| response :=
                              result_value (mkResult "The Council of Nine.") |})
    by reflexivity.
  split; [exact H|].
  destruct (V2_success_response_is_an_object Samples.narrator _ 0 _ H)
    as (Hty & _ & Hnot).
  split; [exact Hty|exact Hnot].
Defined.

(** C6. The claim says the string in the envelope is exactly the text
    the model client returned.  Whenever the V2 endpoint returns, the
    model was called once and its text is a string, but the envelope
    holds the record around that text, not the text.  Whenever the V3
    endpoint returns, the model was called once and its [text] member is
    a method returning a string, but the envelope holds the string the
    template literal makes of the record, whatever the text was. *)
Theorem success_response_is_not_the_model_text {World : Type}
        (client : ModelClient World) (request : CallableRequest) (w : World)
        (env : ResponseEnvelope) :
  (let r := V2.callRpgAssistantV2 client request (start w) in
   fst r = Returned env ->
   exists opts resp answer,
     model_calls (trace (snd r)) = [opts]
     /\ client opts w = (Returned resp, world (snd r))
     /\ text resp = JString answer
     /\ response env = result_value (mkResult answer)
     /\ response env <> JString answer)
  /\
  (let r := V3.callRpgAssistantV3 client request (start w) in
   fst r = Returned env ->
   exists opts resp answer,
     model_calls (trace (snd r)) = [opts]
     /\ client opts w = (Returned resp, world (snd r))
     /\ text resp = JFunction (JString answer)
     /\ response env = JString object_Object).
Proof.
  destruct (accepted_or_refused request) as [(a & p & Ha & Hp & Hne) | Hnot].
  - destruct request as [au d]. cbn in Ha, Hp. subst au.
    destruct (V3_call_follows_flow client a d p w Hp Hne) as (H3 & W3 & T3).
    destruct (V2_call_follows_flow client a d p w Hp Hne) as (H2 & W2 & T2).
    cbv zeta in *. split.
    + pose proof (V2_run_ends client
                    (mkRaw (JString p) (get d "conversationHistory")) (start w))
        as Hends.
      destruct (V2.rpgAssistantFlow client _ (start w)) as [[result|e] s'];
        cbn [fst snd] in *; rewrite H2; intros [= <-].
      apply run_ends_returned in Hends.
      destruct Hends as (input & resp & _ & Hc & Htext & Htrace).
      injection Htext as Htext.
      exists (options_V2 input), resp, (result_text result).
      rewrite <- model_calls_without_console, T2, model_calls_without_console.
      rewrite Htrace, W2. destruct result as [answer]. cbn.
      repeat split; try assumption. discriminate.
    + pose proof (V3_run_ends client
                    (mkRaw (JString p) (get d "conversationHistory")) (start w))
        as Hends.
      destruct (V3.rpgAssistantFlow client _ (start w)) as [[result|e] s'];
        cbn [fst snd] in *; rewrite H3; intros [= <-].
      apply run_ends_returned in Hends.
      destruct Hends as (input & resp & _ & Hc & Htext & Htrace).
      apply call_result_returned in Htext.
      exists (options_V3 input), resp, (result_text result).
      rewrite <- model_calls_without_console, T3, model_calls_without_console.
      rewrite Htrace, W3. repeat split; assumption.
  - destruct (refused_before_flow client request w Hnot)
      as [((e3 & H3) & _) ((e2 & H2) & _)].
    split; cbv zeta; intros H; congruence.
Qed.

Lemma success_response_is_not_the_model_text_witness :
  let request := mkRequest (Some Samples.alice)
                   (Samples.payload (JString Samples.capital) JUndefined) in
  let r := V2.callRpgAssistantV2 Samples.narrator request (start 0) in
  let env := {| response := result_value (mkResult "The Council of Nine.") |} in
  fst r = Returned env
  /\ exists opts resp answer,
       model_calls (trace (snd r)) = [opts]
       /\ Samples.narrator opts 0 = (Returned resp, world (snd r))
       /\ text resp = JString answer
       /\ response env = result_value (mkResult answer)
       /\ response env <> JString answer.
Proof.
  cbv zeta.
  assert (H : fst (V2.callRpgAssistantV2 Samples.narrator
                     (mkRequest (Some Samples.alice)
                        (Samples.payload (JString Samples.capital) JUndefined))
                     (start 0))
              = Returned {| response :=
                              result_value (mkResult "The Council of Nine.") |})
    by reflexivity.
  split; [exact H|].
  exact (proj1 (success_response_is_not_the_model_text Samples.narrator _ 0 _) H).
Defined.

(** When the [text] member of the response is data, as V2 reads it, the
    V3 flow throws at [response.text()] after the model call, and the V3
    endpoint ends in [internal]. *)
Lemma V3_text_data_is_internal {World : Type} (client : ModelClient World)
      (a : AuthData) (d : JsValue) (p : string) (h : option (list JsValue))
      (w w' : World) (resp : GenerateResponse) (answer : string) :
  get d "userPrompt" = JString p -> p <> EmptyString ->
  z_history (get d "conversationHistory") = Some h ->
  client {| prompt := V3.persona; history := h; config := fixed_config |} w
  = (Returned resp, w') ->
  text resp = JString answer ->
  let r := V3.callRpgAssistantV3 client (mkRequest (Some a) d) (start w) in
  fst (V3.rpgAssistantFlow client
         (mkRaw (JString p) (get d "conversationHistory")) (start w))
  = Threw not_a_function
  /\ fst r = Threw (HttpsError internal V3.internal_message)
  /\ length (model_calls (trace (snd r))) = 1.
Proof.
  intros Hp Hne Hh Hc Htext.
  destruct (V3_call_follows_flow client a d p w Hp Hne) as (H3 & _ & T3).
  cbv zeta in *.
  set (raw := mkRaw (JString p) (get d "conversationHistory")) in *.
  assert (Hin : inputSchema raw = Some (mkInput p h)).
  { unfold inputSchema, raw. cbn. now rewrite Hh. }
  assert (Hcall : call_result (text resp) = Threw not_a_function)
    by now rewrite Htext.
  pose proof (run_ends_text_threw client options_V3 call_result raw (start w) _
                (mkInput p h) resp w' not_a_function
                (V3_run_ends client raw (start w)) Hin Hc Hcall) as Hr.
  rewrite <- model_calls_without_console, T3, model_calls_without_console, H3.
  rewrite Hr. repeat split.
Qed.

(* ----------------------------------------------------------------- *)
(** *** What the model client is given *)

(** C7. On an accepted call whose payload carries the turns [turns] as
    [conversationHistory], the model client is called once and receives
    exactly [turns], in order, in the [history] field of its options; the
    prompt it receives is built without them. *)
Theorem history_reaches_the_model_unchanged {World : Type}
        (client : ModelClient World) (a : AuthData) (d : JsValue) (p : string)
        (turns : list JsValue) (w : World) :
  get d "userPrompt" = JString p -> p <> EmptyString ->
  get d "conversationHistory" = JArray turns ->
  forallb z_turn turns = true ->
  model_calls (trace (snd (V3.callRpgAssistantV3 client
                             (mkRequest (Some a) d) (start w))))
  = [{| prompt := V3.persona; history := Some turns; config := fixed_config |}]
  /\
  model_calls (trace (snd (V2.callRpgAssistantV2 client
                             (mkRequest (Some a) d) (start w))))
  = [{| prompt := V2.fullPrompt p; history := Some turns; config := fixed_config |}].
Proof.
  intros Hp Hne Hh Hturns.
  destruct (V3_call_follows_flow client a d p w Hp Hne) as (_ & _ & T3).
  destruct (V2_call_follows_flow client a d p w Hp Hne) as (_ & _ & T2).
  cbv zeta in T3, T2. rewrite Hh in T3, T2.
  pose proof (run_ends_calls _ _ _ _ _ _
                (V3_run_ends client (mkRaw (JString p) (JArray turns)) (start w)))
    as C3.
  pose proof (run_ends_calls _ _ _ _ _ _
                (V2_run_ends client (mkRaw (JString p) (JArray turns)) (start w)))
    as C2.
  rewrite (inputSchema_valid p turns Hturns) in C3, C2.
  split.
  - rewrite <- model_calls_without_console, T3, model_calls_without_console.
    exact C3.
  - rewrite <- model_calls_without_console, T2, model_calls_without_console.
    exact C2.
Qed.

Lemma history_reaches_the_model_unchanged_witness :
  let d := Samples.payload (JString Samples.capital) (JArray Samples.turns_ABC) in
  model_calls (trace (snd (V3.callRpgAssistantV3 Samples.echo
                             (mkRequest (Some Samples.alice) d) (start 0))))
  = [{| prompt := V3.persona; history := Some Samples.turns_ABC;
        config := fixed_config |}]
  /\
  model_calls (trace (snd (V2.callRpgAssistantV2 Samples.echo
                             (mkRequest (Some Samples.alice) d) (start 0))))
  = [{| prompt := V2.fullPrompt Samples.capital;
        history := Some Samples.turns_ABC; config := fixed_config |}].
Proof.
  cbv zeta.
  assert (Hne : Samples.capital <> EmptyString) by discriminate.
  exact (history_reaches_the_model_unchanged Samples.echo Samples.alice
           (Samples.payload (JString Samples.capital) (JArray Samples.turns_ABC))
           Samples.capital Samples.turns_ABC 0 eq_refl Hne eq_refl eq_refl).
Defined.

(** C8. Every run of the flow calls the model client with temperature
    0.7 and at most 500 output tokens: a run adds one model call when its
    input fits the schema and none otherwise, and every call it adds
    carries exactly these parameters, whatever the input is. *)
Theorem generation_parameters_are_fixed {World : Type}
        (client : ModelClient World) (raw : RawInput) (s : State World) :
  (exists added,
      model_calls (trace (snd (V3.rpgAssistantFlow client raw s)))
      = model_calls (trace s) ++ added
      /\ length added = match inputSchema raw with Some _ => 1 | None => 0 end
      /\ Forall (fun opts =>
                   config opts = {| temperature := (7 # 10)%Q;
                                    maxOutputTokens := 500 |}) added)
  /\
  (exists added,
      model_calls (trace (snd (V2.rpgAssistantFlow client raw s)))
      = model_calls (trace s) ++ added
      /\ length added = match inputSchema raw with Some _ => 1 | None => 0 end
      /\ Forall (fun opts =>
                   config opts = {| temperature := (7 # 10)%Q;
                                    maxOutputTokens := 500 |}) added).
Proof.
  pose proof (run_ends_calls _ _ _ _ _ _ (V3_run_ends client raw s)) as C3.
  pose proof (run_ends_calls _ _ _ _ _ _ (V2_run_ends client raw s)) as C2.
  destruct (inputSchema raw) as [input|].
  - split; [exists [options_V3 input]|exists [options_V2 input]];
      (split; [assumption|]); split; try reflexivity;
      repeat constructor.
  - split; exists []; rewrite app_nil_r; repeat split; try assumption;
      constructor.
Qed.

(* ----------------------------------------------------------------- *)
(** *** No second attempt *)

(** C9. On every call the endpoint calls the model client at most once;
    when that call throws, the endpoint ends in [internal] with no
    further model call. *)
Theorem model_is_called_at_most_once {World : Type}
        (client : ModelClient World) (request : CallableRequest) (w : World) :
  (let r := V3.callRpgAssistantV3 client request (start w) in
   length (model_calls (trace (snd r))) <= 1
   /\ forall opts e w',
        In opts (model_calls (trace (snd r))) ->
        client opts w = (Threw e, w') ->
        fst r = Threw (HttpsError internal V3.internal_message)
        /\ model_calls (trace (snd r)) = [opts])
  /\
  (let r := V2.callRpgAssistantV2 client request (start w) in
   length (model_calls (trace (snd r))) <= 1
   /\ forall opts e w',
        In opts (model_calls (trace (snd r))) ->
        client opts w = (Threw e, w') ->
        fst r = Threw (HttpsError internal V2.internal_message)
        /\ model_calls (trace (snd r)) = [opts]).
Proof.
  destruct (accepted_or_refused request) as [(a & p & Ha & Hp & Hne) | Hnot].
  - destruct request as [au d]. cbn in Ha, Hp. subst au.
    destruct (V3_call_follows_flow client a d p w Hp Hne) as (H3 & _ & T3).
    destruct (V2_call_follows_flow client a d p w Hp Hne) as (H2 & _ & T2).
    cbv zeta in *.
    set (raw := mkRaw (JString p) (get d "conversationHistory")) in *.
    pose proof (run_ends_calls _ _ _ _ _ _ (V3_run_ends client raw (start w))) as C3.
    pose proof (run_ends_calls _ _ _ _ _ _ (V2_run_ends client raw (start w))) as C2.
    rewrite <- (model_calls_without_console (trace (snd (V3.callRpgAssistantV3 _ _ _)))).
    rewrite <- (model_calls_without_console (trace (snd (V2.callRpgAssistantV2 _ _ _)))).
    rewrite T3, T2, !model_calls_without_console, H3, H2.
    destruct (inputSchema raw) as [input|] eqn:Hin; rewrite C3, C2;
      cbn [model_calls trace start app length In].
    + split; (split; [lia|]); intros opts e w' [<-|[]] Hc.
      * rewrite (run_ends_client_threw client options_V3 call_result raw (start w) _ input e w'
                   (V3_run_ends client raw (start w)) Hin Hc).
        split; reflexivity.
      * rewrite (run_ends_client_threw client options_V2 (@Returned JsValue) raw (start w) _ input e w'
                   (V2_run_ends client raw (start w)) Hin Hc).
        split; reflexivity.
    + split; (split; [lia|]); intros opts e w' [].
  - destruct (refused_before_flow client request w Hnot)
      as [(_ & T3 & _) (_ & T2 & _)].
    cbv zeta in *.
    apply without_console_nil_calls in T3, T2.
    destruct T3 as [T3 _], T2 as [T2 _]. rewrite T3, T2. cbn.
    split; (split; [lia|]); intros opts e w' [].
Qed.

Lemma model_is_called_at_most_once_witness :
  let request := mkRequest (Some Samples.alice)
                   (Samples.payload (JString Samples.capital) JUndefined) in
  let r := V2.callRpgAssistantV2 Samples.unavailable request (start 0) in
  fst r = Threw (HttpsError internal V2.internal_message)
  /\ model_calls (trace (snd r))
     = [{| prompt := V2.fullPrompt Samples.capital; history := None;
           config := fixed_config |}]
  /\ world (snd r) = 1.
Proof.
  cbv zeta.
  destruct (proj2 (proj2 (model_is_called_at_most_once Samples.unavailable
                            (mkRequest (Some Samples.alice)
                               (Samples.payload (JString Samples.capital) JUndefined))
                            0))
              {| prompt := V2.fullPrompt Samples.capital; history := None;
                 config := fixed_config |}
              (ErrorObject "Error" "503 Service Unavailable") 1
              (or_introl eq_refl) eq_refl) as [Hres Hcalls].
  split; [exact Hres|]. split; [exact Hcalls|reflexivity].
Defined.

(* ----------------------------------------------------------------- *)
(** *** The caller's identity *)

(** C10. Two calls that differ only in the identity attached to them,
    both authenticated, end in the same result, leave the provider in
    the same state and, apart from console records, show the same
    events: the [uid] reaches nothing but the console. *)
Theorem uid_does_not_influence_result {World : Type}
        (client : ModelClient World) (a1 a2 : AuthData) (d : JsValue)
        (w : World) :
  (let r1 := V3.callRpgAssistantV3 client (mkRequest (Some a1) d) (start w) in
   let r2 := V3.callRpgAssistantV3 client (mkRequest (Some a2) d) (start w) in
   fst r1 = fst r2
   /\ world (snd r1) = world (snd r2)
   /\ without_console (trace (snd r1)) = without_console (trace (snd r2)))
  /\
  (let r1 := V2.callRpgAssistantV2 client (mkRequest (Some a1) d) (start w) in
   let r2 := V2.callRpgAssistantV2 client (mkRequest (Some a2) d) (start w) in
   fst r1 = fst r2
   /\ world (snd r1) = world (snd r2)
   /\ without_console (trace (snd r1)) = without_console (trace (snd r2))).
Proof.
  destruct (accepted_or_refused (mkRequest (Some a1) d))
    as [(a & p & _ & Hp & Hne) | Hnot]; cbn [auth data] in *.
  - destruct (V3_call_follows_flow client a1 d p w Hp Hne) as (F1 & W1 & T1).
    destruct (V3_call_follows_flow client a2 d p w Hp Hne) as (F2 & W2 & T2).
    destruct (V2_call_follows_flow client a1 d p w Hp Hne) as (G1 & X1 & U1).
    destruct (V2_call_follows_flow client a2 d p w Hp Hne) as (G2 & X2 & U2).
    cbv zeta in *.
    rewrite F1, F2, W1, W2, T1, T2, G1, G2, X1, X2, U1, U2.
    repeat split.
  - step_through_gates.
    destruct (nullish d) eqn:Hd; cbn; [repeat split|].
    destruct (falsy (get d "userPrompt")
              || negb (is_string_tag (typeof (get d "userPrompt")))) eqn:Hgate;
      cbn; [repeat split|].
    apply gate_passes_iff in Hgate. destruct Hgate as (c & rest & Hp).
    specialize (Hnot a1 _ eq_refl Hp). discriminate.
Qed.

(** The console is where the [uid] does show: the V2 endpoint records it,
    so the full traces of two callers differ. *)
Example V2_uid_reaches_console :
  let d := Samples.payload (JString Samples.capital) JUndefined in
  trace (snd (V2.callRpgAssistantV2 Samples.echo
                (mkRequest (Some Samples.alice) d) (start 0)))
  <> trace (snd (V2.callRpgAssistantV2 Samples.echo
                   (mkRequest (Some Samples.bob) d) (start 0))).
Proof. cbv zeta. vm_compute. discriminate. Qed.

(* ----------------------------------------------------------------- *)
(** *** Scenarios *)

(** A call without [conversationHistory] reaches the model with no
    history and the fixed parameters. *)
Lemma call_without_history {World : Type} (client : ModelClient World)
      (a : AuthData) (d : JsValue) (p : string) (w : World) :
  get d "userPrompt" = JString p -> p <> EmptyString ->
  get d "conversationHistory" = JUndefined ->
  model_calls (trace (snd (V3.callRpgAssistantV3 client
                             (mkRequest (Some a) d) (start w))))
  = [{| prompt := V3.persona; history := None; config := fixed_config |}]
  /\
  model_calls (trace (snd (V2.callRpgAssistantV2 client
                             (mkRequest (Some a) d) (start w))))
  = [{| prompt := V2.fullPrompt p; history := None; config := fixed_config |}].
Proof.
  intros Hp Hne Hh.
  destruct (V3_call_follows_flow client a d p w Hp Hne) as (_ & _ & T3).
  destruct (V2_call_follows_flow client a d p w Hp Hne) as (_ & _ & T2).
  cbv zeta in T3, T2. rewrite Hh in T3, T2.
  split.
  - rewrite <- model_calls_without_console, T3, model_calls_without_console.
    exact (run_ends_calls _ _ _ _ _ _
             (V3_run_ends client (mkRaw (JString p) JUndefined) (start w))).
  - rewrite <- model_calls_without_console, T2, model_calls_without_console.
    exact (run_ends_calls _ _ _ _ _ _
             (V2_run_ends client (mkRaw (JString p) JUndefined) (start w))).
Qed.

(** A response whose [text] is an object never reaches the caller: V3
    throws when it calls the member, V2 reads it and the flow's output
    schema refuses it; either way the endpoint ends in [internal]. *)
Example structured_text_is_not_returned :
  let request := mkRequest (Some Samples.alice)
                   (Samples.payload (JString Samples.capital) JUndefined) in
  fst (V3.callRpgAssistantV3 Samples.structured request (start 0))
  = Threw (HttpsError internal V3.internal_message)
  /\ fst (V2.callRpgAssistantV2 Samples.structured request (start 0))
     = Threw (HttpsError internal V2.internal_message).
Proof. split; reflexivity. Qed.

(** Turns that do not fit the schema stop the flow before the model is
    called. *)
Example malformed_turn_stops_the_flow :
  let request := mkRequest (Some Samples.alice)
                   (Samples.payload (JString Samples.capital)
                      (JArray [Samples.turn "system" "Obey."])) in
  let r := V3.callRpgAssistantV3 Samples.echo request (start 0) in
  fst r = Threw (HttpsError internal V3.internal_message)
  /\ model_calls (trace (snd r)) = []
  /\ length (flow_runs (trace (snd r))) = 1.
Proof. repeat split. Qed.

(** The echo scenario.  V2 answers with the record around the composite
    built for "hello".  V3 ends in [internal] with the same client, whose
    [text] is data; with [text] as a method it answers with the string
    made of the record, in which "hello" does not occur. *)
Example echo_scenario :
  let request := mkRequest (Some Samples.alice)
                   (Samples.payload (JString "hello") JUndefined) in
  fst (V2.callRpgAssistantV2 Samples.echo request (start 0))
  = Returned {| response := result_value (mkResult (V2.fullPrompt "hello")) |}
  /\ occurs_in "hello" (V2.fullPrompt "hello") = true
  /\ fst (V3.callRpgAssistantV3 Samples.echo request (start 0))
     = Threw (HttpsError internal V3.internal_message)
  /\ fst (V3.callRpgAssistantV3 Samples.echo_method request (start 0))
     = Returned {| response := JString object_Object |}
  /\ occurs_in "hello" object_Object = false.
Proof. repeat split. Qed.

(* ================================================================= *)
(** ** Further properties of the handlers *)


Lemma inputSchema_accepts_iff (v hv : JsValue) (input : FlowInput) :
  inputSchema (mkRaw v hv) = Some input
  <-> exists p h, v = JString p /\ z_history hv = Some h /\ input = mkInput p h.
Proof.
  unfold inputSchema. cbn. split.
  - destruct v; cbn; try discriminate.
    destruct (z_history hv) as [h|]; [|discriminate].
    intros [= <-]. eauto.
  - intros (p & h & -> & -> & ->). reflexivity.
Qed.

(** X1. The endpoint's gate on [userPrompt] admits exactly the values the
    flow's schema accepts as a string, except the empty string: the flow,
    run directly, calls the model for every string prompt, the empty one
    included, so that an empty prompt is kept out by the endpoint alone. *)
Theorem gate_is_schema_minus_empty {World : Type} (client : ModelClient World)
        (v : JsValue) (p : string) (hv : JsValue) (h : option (list JsValue))
        (s : State World) :
  (falsy v || negb (is_string_tag (typeof v)) = false
   <-> exists q, z_string v = Some q /\ q <> EmptyString)
  /\ (z_history hv = Some h ->
      model_calls (trace (snd (V3.rpgAssistantFlow client (mkRaw (JString p) hv) s)))
      = model_calls (trace s)
          ++ [{| prompt := V3.persona; history := h; config := fixed_config |}]
      /\ model_calls (trace (snd (V2.rpgAssistantFlow client (mkRaw (JString p) hv) s)))
         = model_calls (trace s)
             ++ [{| prompt := V2.fullPrompt p; history := h; config := fixed_config |}]).
Proof.
  split.
  - rewrite gate_passes_iff. split.
    + intros (c & rest & ->). exists (String c rest). split; [reflexivity|discriminate].
    + intros (q & Hq & Hne). destruct v; try discriminate.
      injection Hq as ->. destruct q as [|c rest]; [congruence|eauto].
  - intros Hh.
    assert (Hin : inputSchema (mkRaw (JString p) hv) = Some (mkInput p h))
      by (apply inputSchema_accepts_iff; eauto).
    pose proof (run_ends_calls _ _ _ _ _ _
                  (V3_run_ends client (mkRaw (JString p) hv) s)) as C3.
    pose proof (run_ends_calls _ _ _ _ _ _
                  (V2_run_ends client (mkRaw (JString p) hv) s)) as C2.
    rewrite Hin in C3, C2. split; assumption.
Qed.

Lemma gate_is_schema_minus_empty_witness :
  model_calls (trace (snd (V2.rpgAssistantFlow Samples.echo
                             (mkRaw (JString EmptyString) JUndefined) (start 0))))
  = [{| prompt := V2.fullPrompt EmptyString; history := None;
        config := fixed_config |}]
  /\ falsy (JString EmptyString)
     || negb (is_string_tag (typeof (JString EmptyString))) = true.
Proof.
  split; [|reflexivity].
  exact (proj2 (proj2 (gate_is_schema_minus_empty Samples.echo JNull EmptyString
                         JUndefined None (start 0))
                  eq_refl)).
Defined.

(** X2. The endpoint returns an envelope exactly when the call carries an
    identity, [userPrompt] is a non-empty string, [conversationHistory] is
    absent or an array of turns fitting the schema, and the model client
    resolves to a response whose [text] member yields a string the way
    the revision takes it: called as a method in V3, read as data in V2.
    The V3 envelope then holds the string made of the run's record, the
    V2 envelope the record around the text. *)
Theorem success_iff {World : Type} (client : ModelClient World)
        (request : CallableRequest) (w : World) (env : ResponseEnvelope) :
  (fst (V3.callRpgAssistantV3 client request (start w)) = Returned env
   <-> exists a p h resp w' answer,
         auth request = Some a
         /\ get (data request) "userPrompt" = JString p /\ p <> EmptyString
         /\ z_history (get (data request) "conversationHistory") = Some h
         /\ client {| prompt := V3.persona; history := h; config := fixed_config |} w
            = (Returned resp, w')
         /\ text resp = JFunction (JString answer)
         /\ env = {| response := JString object_Object |})
  /\
  (fst (V2.callRpgAssistantV2 client request (start w)) = Returned env
   <-> exists a p h resp w' answer,
         auth request = Some a
         /\ get (data request) "userPrompt" = JString p /\ p <> EmptyString
         /\ z_history (get (data request) "conversationHistory") = Some h
         /\ client {| prompt := V2.fullPrompt p; history := h; config := fixed_config |} w
            = (Returned resp, w')
         /\ text resp = JString answer
         /\ env = {| response := result_value (mkResult answer) |}).
Proof.
  destruct (accepted_or_refused request) as [(a & p & Ha & Hp & Hne) | Hnot].
  - destruct request as [au d]. cbn [auth data] in *. subst au.
    destruct (V3_call_follows_flow client a d p w Hp Hne) as (H3 & _).
    destruct (V2_call_follows_flow client a d p w Hp Hne) as (H2 & _).
    cbv zeta in H3, H2. rewrite H3, H2.
    set (raw := mkRaw (JString p) (get d "conversationHistory")) in *.
    pose proof (V3_run_ends client raw (start w)) as E3.
    pose proof (V2_run_ends client raw (start w)) as E2.
    split; split.
    + destruct (V3.rpgAssistantFlow client raw (start w)) as [[result|e] s'];
        cbn [fst]; intros [= <-].
      apply run_ends_returned in E3.
      destruct E3 as (input & resp & Hin & Hc & Htext & _).
      apply call_result_returned in Htext.
      apply inputSchema_accepts_iff in Hin.
      destruct Hin as (p' & h & [= <-] & Hh & ->).
      exists a, p, h, resp, (world s'), (result_text result).
      repeat split; assumption.
    + intros (a' & p' & h & resp & w' & answer & _ & Hp' & _ & Hh & Hc & Htext & ->).
      rewrite Hp in Hp'. injection Hp' as <-.
      assert (Hin : inputSchema raw = Some (mkInput p h))
        by (apply inputSchema_accepts_iff; eauto).
      assert (Hcall : call_result (text resp) = Returned (JString answer))
        by now rewrite Htext.
      rewrite (run_ends_answered client options_V3 call_result raw (start w) _ _
                 resp w' answer E3 Hin Hc Hcall).
      reflexivity.
    + destruct (V2.rpgAssistantFlow client raw (start w)) as [[result|e] s'];
        cbn [fst]; intros [= <-].
      apply run_ends_returned in E2.
      destruct E2 as (input & resp & Hin & Hc & Htext & _).
      injection Htext as Htext.
      apply inputSchema_accepts_iff in Hin.
      destruct Hin as (p' & h & [= <-] & Hh & ->).
      exists a, p, h, resp, (world s'), (result_text result).
      destruct result as [answer]. repeat split; assumption.
    + intros (a' & p' & h & resp & w' & answer & _ & Hp' & _ & Hh & Hc & Htext & ->).
      rewrite Hp in Hp'. injection Hp' as <-.
      assert (Hin : inputSchema raw = Some (mkInput p h))
        by (apply inputSchema_accepts_iff; eauto).
      assert (Hread : Returned (text resp) = Returned (JString answer))
        by now rewrite Htext.
      rewrite (run_ends_answered client options_V2 (@Returned JsValue) raw
                 (start w) _ _ resp w' answer E2 Hin Hc Hread).
      reflexivity.
  - destruct (refused_before_flow client request w Hnot)
      as [((e3 & H3) & _) ((e2 & H2) & _)].
    cbv zeta in H3, H2. rewrite H3, H2.
    split; split; try discriminate;
      intros (a & p & h & resp & w' & answer & Ha & Hp & Hne & _);
      contradiction Hne; exact (Hnot a p Ha Hp).
Qed.

Lemma success_iff_witness :
  let request := mkRequest (Some Samples.alice)
                   (Samples.payload (JString Samples.capital)
                      (JArray Samples.turns_ABC)) in
  fst (V2.callRpgAssistantV2 Samples.echo request (start 0))
  = Returned {| response :=
                  result_value (mkResult (V2.fullPrompt Samples.capital)) |}
  /\ fst (V3.callRpgAssistantV3 Samples.echo_method request (start 0))
     = Returned {| response := JString object_Object |}.
Proof.
  cbv zeta. split.
  - apply (proj2 (proj2 (success_iff Samples.echo _ 0 _))).
    exists Samples.alice, Samples.capital, (Some Samples.turns_ABC),
      (mkResponse (JString (V2.fullPrompt Samples.capital)) JNull), 1,
      (V2.fullPrompt Samples.capital).
    repeat split. discriminate.
  - apply (proj2 (proj1 (success_iff Samples.echo_method _ 0 _))).
    exists Samples.alice, Samples.capital, (Some Samples.turns_ABC),
      (mkResponse (JFunction (JString V3.persona)) JNull), 1, V3.persona.
    repeat split. discriminate.
Defined.

(** X3. The endpoint does not look into [conversationHistory]: on a call
    that passes both gates with a history that does not fit the flow's
    schema ([null], a non-array, or an array with a malformed turn), the
    flow is run once and refuses its input, the model client is not
    called, and the caller gets [internal], not [invalid-argument]. *)
Theorem malformed_history_is_internal {World : Type} (client : ModelClient World)
        (a : AuthData) (d : JsValue) (p : string) (w : World) :
  get d "userPrompt" = JString p -> p <> EmptyString ->
  z_history (get d "conversationHistory") = None ->
  let raw := mkRaw (JString p) (get d "conversationHistory") in
  (let r := V3.callRpgAssistantV3 client (mkRequest (Some a) d) (start w) in
   fst r = Threw (HttpsError internal V3.internal_message)
   /\ flow_runs (trace (snd r)) = [raw]
   /\ model_calls (trace (snd r)) = []
   /\ world (snd r) = w)
  /\
  (let r := V2.callRpgAssistantV2 client (mkRequest (Some a) d) (start w) in
   fst r = Threw (HttpsError internal V2.internal_message)
   /\ flow_runs (trace (snd r)) = [raw]
   /\ model_calls (trace (snd r)) = []
   /\ world (snd r) = w).
Proof.
  intros Hp Hne Hh raw.
  assert (Hin : inputSchema raw = None).
  { unfold inputSchema, raw. cbn. now rewrite Hh. }
  destruct (V3_call_follows_flow client a d p w Hp Hne) as (H3 & W3 & T3).
  destruct (V2_call_follows_flow client a d p w Hp Hne) as (H2 & W2 & T2).
  cbv zeta in *. fold raw in H3, W3, T3, H2, W2, T2.
  rewrite (run_ends_input_rejected client options_V3 call_result raw (start w) _
             (V3_run_ends client raw (start w)) Hin) in H3, W3, T3.
  rewrite (run_ends_input_rejected client options_V2 (@Returned JsValue) raw (start w) _
             (V2_run_ends client raw (start w)) Hin) in H2, W2, T2.
  cbn [fst snd world trace start app without_console filter is_console negb]
    in H3, W3, T3, H2, W2, T2.
  split; (split; [assumption|]);
    rewrite <- flow_runs_without_console, <- model_calls_without_console.
  - rewrite T3. repeat split. exact W3.
  - rewrite T2. repeat split. exact W2.
Qed.

Lemma malformed_history_is_internal_witness :
  let d := Samples.payload (JString Samples.capital) JNull in
  let r := V3.callRpgAssistantV3 Samples.echo
             (mkRequest (Some Samples.alice) d) (start 0) in
  fst r = Threw (HttpsError internal V3.internal_message)
  /\ model_calls (trace (snd r)) = []
  /\ world (snd r) = 0.
Proof.
  cbv zeta.
  assert (Hne : Samples.capital <> EmptyString) by discriminate.
  destruct (malformed_history_is_internal Samples.echo Samples.alice
              (Samples.payload (JString Samples.capital) JNull)
              Samples.capital 0 eq_refl Hne eq_refl)
    as [(Hres & _ & Hcalls & Hw) _].
  repeat split; assumption.
Defined.

(** X4. An authenticated call whose payload is [null] or [undefined] does
    not end in one of the endpoint's own errors: the destructuring throws
    a [TypeError] outside the [try], before validation; the flow is not
    run and the model client is not called. *)
Theorem null_payload_escapes_the_taxonomy {World : Type}
        (client : ModelClient World) (a : AuthData) (d : JsValue) (w : World) :
  nullish d = true ->
  (let r := V3.callRpgAssistantV3 client (mkRequest (Some a) d) (start w) in
   fst r = Threw destructure_error
   /\ (forall code message, fst r <> Threw (HttpsError code message))
   /\ without_console (trace (snd r)) = []
   /\ world (snd r) = w)
  /\
  (let r := V2.callRpgAssistantV2 client (mkRequest (Some a) d) (start w) in
   fst r = Threw destructure_error
   /\ (forall code message, fst r <> Threw (HttpsError code message))
   /\ without_console (trace (snd r)) = []
   /\ world (snd r) = w).
Proof.
  intros Hd. step_through_gates. rewrite Hd. cbn.
  repeat split; discriminate.
Qed.

Lemma null_payload_escapes_the_taxonomy_witness :
  fst (V3.callRpgAssistantV3 Samples.echo
         (mkRequest (Some Samples.alice) JNull) (start 0))
  = Threw destructure_error.
Proof.
  exact (proj1 (proj1 (null_payload_escapes_the_taxonomy Samples.echo
                         Samples.alice JNull 0 eq_refl))).
Defined.

(** X5. Apart from the null payload, every call ends in exactly one of
    four ways: an envelope, which in V3 holds the string made of the
    run's record and in V2 the record itself, or [HttpsError] with one of
    the codes [unauthenticated], [invalid-argument] and [internal], each
    with its fixed message. *)
Theorem outcomes_are_closed {World : Type} (client : ModelClient World)
        (request : CallableRequest) (w : World) :
  auth request = None \/ nullish (data request) = false ->
  (let r := fst (V3.callRpgAssistantV3 client request (start w)) in
   r = Returned {| response := JString object_Object |}
   \/ r = Threw (HttpsError unauthenticated "The function requires authentication.")
   \/ r = Threw (HttpsError invalid_argument
                   ("The function expects a valid " ++ dquote ++ "userPrompt"
                      ++ dquote ++ " string.")%string)
   \/ r = Threw (HttpsError internal V3.internal_message))
  /\
  (let r := fst (V2.callRpgAssistantV2 client request (start w)) in
   (exists result, r = Returned {| response := result_value result |})
   \/ r = Threw (HttpsError unauthenticated "The AI assistant requires authentication.")
   \/ r = Threw (HttpsError invalid_argument
                   ("The function expects a valid " ++ dquote ++ "userPrompt"
                      ++ dquote ++ " string.")%string)
   \/ r = Threw (HttpsError internal V2.internal_message)).
Proof.
  intros Hdom.
  destruct (accepted_or_refused request) as [(a & p & Ha & Hp & Hne) | Hnot].
  - destruct request as [au d]. cbn [auth data] in *. subst au.
    destruct (V3_call_follows_flow client a d p w Hp Hne) as (H3 & _).
    destruct (V2_call_follows_flow client a d p w Hp Hne) as (H2 & _).
    cbv zeta in *. rewrite H3, H2.
    split.
    + destruct (fst (V3.rpgAssistantFlow _ _ _)) as [result|e]; eauto.
    + destruct (fst (V2.rpgAssistantFlow _ _ _)) as [result|e]; eauto.
  - destruct request as [au d]. cbn [auth data] in *.
    step_through_gates.
    destruct au as [a|]; cbn; [|split; right; left; reflexivity].
    destruct Hdom as [Hdom|Hd]; [discriminate|]. rewrite Hd. cbn.
    destruct (falsy (get d "userPrompt")
              || negb (is_string_tag (typeof (get d "userPrompt")))) eqn:Hgate;
      cbn; [split; right; right; left; reflexivity|].
    apply gate_passes_iff in Hgate. destruct Hgate as (c & rest & Hp).
    specialize (Hnot a _ eq_refl Hp). discriminate.
Qed.

Lemma outcomes_are_closed_witness :
  let request := mkRequest (Some Samples.bob)
                   (Samples.payload (JString Samples.capital) JUndefined) in
  let r := fst (V2.callRpgAssistantV2 Samples.narrator request (start 0)) in
  r = Returned {| response := result_value (mkResult "The Council of Nine.") |}
  /\ ((exists result, r = Returned {| response := result_value result |})
      \/ r = Threw (HttpsError unauthenticated "The AI assistant requires authentication.")
      \/ r = Threw (HttpsError invalid_argument
                      ("The function expects a valid " ++ dquote ++ "userPrompt"
                         ++ dquote ++ " string.")%string)
      \/ r = Threw (HttpsError internal V2.internal_message)).
Proof.
  cbv zeta. split; [reflexivity|].
  exact (proj2 (outcomes_are_closed Samples.narrator
                  (mkRequest (Some Samples.bob)
                     (Samples.payload (JString Samples.capital) JUndefined))
                  0 (or_intror eq_refl))).
Defined.

Section FreshRuns.

Context {World : Type}.
Variable client : ModelClient World.
Variable options_of : FlowInput -> GenerateOptions.
Variable take_text : JsValue -> Outcome JsValue.

(** What a run from a fresh state leaves in the trace and in the
    provider. *)
Lemma run_ends_fresh raw w r :
  run_ends client options_of take_text raw (start w) r ->
  flow_runs (trace (snd r)) = [raw]
  /\ error_records (trace (snd r)) = []
  /\ world (snd r)
     = match model_calls (trace (snd r)) with
       | [] => w
       | opts :: _ => snd (client opts w)
       end.
Proof.
  intros H.
  destruct H as [Hin|input e w' Hin Hc|input resp w' e Hin Hc _
                |input resp w' out Hin Hc _ _
                |input resp w' answer Hin Hc _];
    cbn in *; try rewrite Hc; repeat split.
Qed.

End FreshRuns.

Lemma error_records_app (tr tr' : list Event) :
  error_records (tr ++ tr') = error_records tr ++ error_records tr'.
Proof. apply flat_map_app. Qed.

(** X6. The provider is touched by the model call and by nothing else:
    after any call its state is the initial one when no model call was
    made, and otherwise the state the client left after the one call. *)
Theorem provider_changes_only_by_the_model_call {World : Type}
        (client : ModelClient World) (request : CallableRequest) (w : World) :
  (let r := V3.callRpgAssistantV3 client request (start w) in
   world (snd r) = match model_calls (trace (snd r)) with
                   | [] => w
                   | opts :: _ => snd (client opts w)
                   end)
  /\
  (let r := V2.callRpgAssistantV2 client request (start w) in
   world (snd r) = match model_calls (trace (snd r)) with
                   | [] => w
                   | opts :: _ => snd (client opts w)
                   end).
Proof.
  destruct (accepted_or_refused request) as [(a & p & Ha & Hp & Hne) | Hnot].
  - destruct request as [au d]. cbn [auth data] in *. subst au.
    destruct (V3_call_follows_flow client a d p w Hp Hne) as (_ & W3 & T3).
    destruct (V2_call_follows_flow client a d p w Hp Hne) as (_ & W2 & T2).
    cbv zeta in *.
    set (raw := mkRaw (JString p) (get d "conversationHistory")) in *.
    destruct (run_ends_fresh client options_V3 call_result raw w _
                (V3_run_ends client raw (start w))) as (_ & _ & F3).
    destruct (run_ends_fresh client options_V2 (@Returned JsValue) raw w _
                (V2_run_ends client raw (start w))) as (_ & _ & F2).
    split.
    + rewrite <- model_calls_without_console, T3, model_calls_without_console.
      now rewrite W3.
    + rewrite <- model_calls_without_console, T2, model_calls_without_console.
      now rewrite W2.
  - destruct (refused_before_flow client request w Hnot)
      as [(_ & T3 & W3) (_ & T2 & W2)].
    cbv zeta in *.
    apply without_console_nil_calls in T3, T2.
    destruct T3 as [T3 _], T2 as [T2 _]. rewrite T3, T2, W3, W2.
    split; reflexivity.
Qed.

(** X7. The flow is run exactly when the call carries an identity and a
    non-empty string [userPrompt], and then once, on the payload's own
    [userPrompt] and [conversationHistory] values as they arrived. *)
Theorem flow_is_run_on_the_payload_values {World : Type}
        (client : ModelClient World) (request : CallableRequest) (w : World) :
  let expected :=
    match auth request, get (data request) "userPrompt" with
    | Some _, JString (String c rest) =>
        [mkRaw (JString (String c rest))
               (get (data request) "conversationHistory")]
    | _, _ => []
    end in
  flow_runs (trace (snd (V3.callRpgAssistantV3 client request (start w))))
  = expected
  /\ flow_runs (trace (snd (V2.callRpgAssistantV2 client request (start w))))
     = expected.
Proof.
  cbv zeta.
  destruct (accepted_or_refused request) as [(a & p & Ha & Hp & Hne) | Hnot].
  - destruct request as [au d]. cbn [auth data] in *. subst au.
    destruct (V3_call_follows_flow client a d p w Hp Hne) as (_ & _ & T3).
    destruct (V2_call_follows_flow client a d p w Hp Hne) as (_ & _ & T2).
    cbv zeta in *.
    set (raw := mkRaw (JString p) (get d "conversationHistory")) in *.
    destruct (run_ends_fresh client options_V3 call_result raw w _
                (V3_run_ends client raw (start w))) as (F3 & _).
    destruct (run_ends_fresh client options_V2 (@Returned JsValue) raw w _
                (V2_run_ends client raw (start w))) as (F2 & _).
    rewrite <- (flow_runs_without_console (trace (snd (V3.callRpgAssistantV3 _ _ _)))).
    rewrite <- (flow_runs_without_console (trace (snd (V2.callRpgAssistantV2 _ _ _)))).
    rewrite T3, T2, !flow_runs_without_console, F3, F2.
    subst raw. rewrite Hp. destruct p as [|c rest]; [congruence|].
    split; reflexivity.
  - destruct (refused_before_flow client request w Hnot)
      as [(_ & T3 & _) (_ & T2 & _)].
    cbv zeta in *.
    apply without_console_nil_calls in T3, T2.
    destruct T3 as [_ T3], T2 as [_ T2]. rewrite T3, T2.
    destruct (auth request) as [a|] eqn:Ha; [|split; reflexivity].
    destruct (get (data request) "userPrompt") as [| |b|q|p|items|props|f] eqn:Hp;
      try (split; reflexivity).
    destruct p as [|c rest]; [split; reflexivity|].
    specialize (Hnot a _ eq_refl eq_refl). discriminate.
Qed.

(** X8. When the flow fails with [e] on a call that passed both gates,
    [e] itself is written to the error console: V3 writes one error
    record holding it; V2 writes one holding it and, when [e] is an
    [Error] instance, a second one holding its message.  Nothing else is
    written at level error on such a call. *)
Theorem failure_detail_goes_to_the_console {World : Type}
        (client : ModelClient World) (a : AuthData) (d : JsValue) (p : string)
        (w : World) (e : Thrown) :
  get d "userPrompt" = JString p -> p <> EmptyString ->
  let raw := mkRaw (JString p) (get d "conversationHistory") in
  (fst (V3.rpgAssistantFlow client raw (start w)) = Threw e ->
   error_records (trace (snd (V3.callRpgAssistantV3 client
                                (mkRequest (Some a) d) (start w))))
   = [[arg_text "CRITICAL ERROR in V3:"; arg_thrown e]])
  /\
  (fst (V2.rpgAssistantFlow client raw (start w)) = Threw e ->
   error_records (trace (snd (V2.callRpgAssistantV2 client
                                (mkRequest (Some a) d) (start w))))
   = [arg_text "CRITICAL: Error executing RPG Assistant Flow:"; arg_thrown e]
       :: (if instanceof_Error e
           then [[arg_text "Underlying error message:";
                  arg_text (error_message e)]]
           else [])).
Proof.
  intros Hp Hne raw. split; intros Hflow.
  - rewrite (V3_call_past_gates client a d p w Hp Hne). cbv zeta. fold raw.
    rewrite V3_flow_shape in *.
    destruct (run_ends_fresh client options_V3 call_result raw w _
                (defineFlow_run_ends client options_V3 call_result raw (start w)))
      as (_ & E0 & _).
    match goal with |- context [defineFlow ?i ?o ?b raw (mkState w ?tr)] =>
      destruct (defineFlow_frame client options_V3 call_result raw w tr)
        as (Hfst & _ & Htrace);
      cbv zeta in Hfst, Htrace;
      revert Hfst Htrace;
      generalize (defineFlow i o b raw (mkState w tr))
    end.
    intros [o1 s1]. cbn [fst snd]. rewrite Hflow. intros -> Htrace.
    cbn [snd trace]. rewrite Htrace, !error_records_app, E0. reflexivity.
  - rewrite (V2_call_past_gates client a d p w Hp Hne). cbv zeta. fold raw.
    rewrite V2_flow_shape in *.
    destruct (run_ends_fresh client options_V2 (@Returned JsValue) raw w _
                (defineFlow_run_ends client options_V2 (@Returned JsValue) raw (start w)))
      as (_ & E0 & _).
    match goal with |- context [defineFlow ?i ?o ?b raw (mkState w ?tr)] =>
      destruct (defineFlow_frame client options_V2 (@Returned JsValue) raw w tr)
        as (Hfst & _ & Htrace);
      cbv zeta in Hfst, Htrace;
      revert Hfst Htrace;
      generalize (defineFlow i o b raw (mkState w tr))
    end.
    intros [o1 s1]. cbn [fst snd]. rewrite Hflow. intros -> Htrace.
    cbn [snd trace]. rewrite !error_records_app, Htrace, !error_records_app, E0.
    destruct (instanceof_Error e); reflexivity.
Qed.

Lemma failure_detail_goes_to_the_console_witness :
  let d := Samples.payload (JString Samples.capital) JUndefined in
  error_records (trace (snd (V2.callRpgAssistantV2 Samples.unavailable
                               (mkRequest (Some Samples.alice) d) (start 0))))
  = [[arg_text "CRITICAL: Error executing RPG Assistant Flow:";
      arg_thrown (ErrorObject "Error" "503 Service Unavailable")];
     [arg_text "Underlying error message:";
      arg_text "503 Service Unavailable"]].
Proof.
  cbv zeta.
  assert (Hne : Samples.capital <> EmptyString) by discriminate.
  exact (proj2 (failure_detail_goes_to_the_console Samples.unavailable
                  Samples.alice
                  (Samples.payload (JString Samples.capital) JUndefined)
                  Samples.capital 0
                  (ErrorObject "Error" "503 Service Unavailable")
                  eq_refl Hne) eq_refl).
Defined.

(* ----------------------------------------------------------------- *)
(** *** Where the caller's identity goes *)

(** X9. V3 uses the identity for the authentication check only: two
    authenticated calls with the same payload give the same result,
    console records included.  V2 writes the [uid] to one console record:
    the traces of two such calls have the same length and agree at every
    position except the second record. *)
Theorem uid_is_written_to_one_record_at_most {World : Type}
        (client : ModelClient World) (a1 a2 : AuthData) (d : JsValue)
        (w : World) :
  V3.callRpgAssistantV3 client (mkRequest (Some a1) d) (start w)
  = V3.callRpgAssistantV3 client (mkRequest (Some a2) d) (start w)
  /\
  (let t1 := trace (snd (V2.callRpgAssistantV2 client
                           (mkRequest (Some a1) d) (start w))) in
   let t2 := trace (snd (V2.callRpgAssistantV2 client
                           (mkRequest (Some a2) d) (start w))) in
   length t1 = length t2
   /\ forall i, i <> 1 -> nth_error t1 i = nth_error t2 i).
Proof.
  split; [reflexivity|].
  destruct (accepted_or_refused (mkRequest (Some a1) d))
    as [(a & p & _ & Hp & Hne) | Hnot]; cbn [auth data] in *.
  - rewrite (V2_call_past_gates client a1 d p w Hp Hne),
      (V2_call_past_gates client a2 d p w Hp Hne).
    cbv zeta. rewrite V2_flow_shape.
    set (raw := mkRaw (JString p) (get d "conversationHistory")).
    match goal with
    | |- context [defineFlow ?i ?o ?b raw (mkState w (?c0 :: ?c1 :: nil))] =>
        destruct (defineFlow_frame client options_V2 (@Returned JsValue) raw w (c0 :: c1 :: nil))
          as (Hfst1 & _ & Htrace1);
        cbv zeta in Hfst1, Htrace1;
        revert Hfst1 Htrace1;
        generalize (defineFlow i o b raw (mkState w (c0 :: c1 :: nil)))
    end.
    intros [o1 s1]. cbn [fst snd]. intros -> Htrace1.
    match goal with
    | |- context [defineFlow ?i ?o ?b raw (mkState w (?c0 :: ?c1 :: nil))] =>
        destruct (defineFlow_frame client options_V2 (@Returned JsValue) raw w (c0 :: c1 :: nil))
          as (Hfst2 & _ & Htrace2);
        cbv zeta in Hfst2, Htrace2;
        revert Hfst2 Htrace2;
        generalize (defineFlow i o b raw (mkState w (c0 :: c1 :: nil)))
    end.
    intros [o2 s2]. cbn [fst snd]. intros -> Htrace2.
    destruct (fst (defineFlow _ _ _ raw (start w))) as [answer|e];
      cbn [snd trace]; rewrite Htrace1, Htrace2; cbn [app length];
      (split; [reflexivity|]); intros [|[|i]] Hi; try reflexivity;
      contradiction Hi; reflexivity.
  - step_through_gates.
    destruct (nullish d) eqn:Hd; cbn; [split; reflexivity|].
    destruct (falsy (get d "userPrompt")
              || negb (is_string_tag (typeof (get d "userPrompt")))) eqn:Hgate;
      cbn; [split; reflexivity|].
    apply gate_passes_iff in Hgate. destruct Hgate as (c & rest & Hp).
    specialize (Hnot a1 _ eq_refl Hp). discriminate.
Qed.

(* ----------------------------------------------------------------- *)
(** *** The composite prompt of V2 *)

Lemma append_inv_head (s a b : string) :
  (s ++ a)%string = (s ++ b)%string -> a = b.
Proof. induction s as [|c s IH]; cbn; [trivial|]. intros [= H]. auto. Qed.

Lemma length_append (a b : string) :
  String.length (a ++ b) = String.length a + String.length b.
Proof. induction a as [|c a IH]; cbn; [reflexivity|now rewrite IH]. Qed.

Lemma append_inv_tail (a b t : string) :
  (a ++ t)%string = (b ++ t)%string -> a = b.
Proof.
  revert b. induction a as [|c a IH]; intros [|c' b] H; cbn in H.
  - reflexivity.
  - apply (f_equal String.length) in H. cbn in H.
    rewrite length_append in H. lia.
  - apply (f_equal String.length) in H. cbn in H.
    rewrite length_append in H. lia.
  - injection H as -> H. f_equal. now apply IH.
Qed.

Lemma substring_after_prefix (pre s : string) (m : nat) :
  substring (String.length pre) m (pre ++ s) = substring 0 m s.
Proof. induction pre as [|c pre IH]; cbn; [reflexivity|exact IH]. Qed.

Lemma substring_of_prefix (p post : string) :
  substring 0 (String.length p) (p ++ post) = p.
Proof.
  induction p as [|c p IH]; cbn; [now destruct post|now rewrite IH].
Qed.

(** X10. The composite prompt of V2 carries the caller's prompt verbatim,
    without escaping or truncation: it can be read back at a fixed
    offset, the composite is longer than the prompt by a constant, and
    two different prompts never give the same composite. *)
Theorem fullPrompt_keeps_the_prompt (p q : string) :
  substring (String.length V2.before_prompt) (String.length p) (V2.fullPrompt p) = p
  /\ String.length (V2.fullPrompt p)
     = String.length V2.before_prompt + String.length p
       + String.length V2.after_prompt
  /\ (V2.fullPrompt p = V2.fullPrompt q -> p = q).
Proof.
  unfold V2.fullPrompt, template. repeat split.
  - rewrite substring_after_prefix. apply substring_of_prefix.
  - rewrite !length_append. lia.
  - intros H. apply append_inv_head in H. now apply append_inv_tail in H.
Qed.

Lemma fullPrompt_keeps_the_prompt_witness :
  String.length V2.before_prompt = 131
  /\ substring 131 5 (V2.fullPrompt "hello") = "hello"
  /\ (V2.fullPrompt "hello" = V2.fullPrompt "hello" -> "hello" = "hello").
Proof.
  split; [reflexivity|].
  split; [exact (proj1 (fullPrompt_keeps_the_prompt "hello" "hello"))
         |exact (proj2 (proj2 (fullPrompt_keeps_the_prompt "hello" "hello")))].
Defined.

(* ----------------------------------------------------------------- *)
(** *** What reaches the model *)

Lemma z_turn_role (t : JsValue) :
  z_turn t = true ->
  get t "role" = JString "user" \/ get t "role" = JString "model".
Proof.
  unfold z_turn, z_role. intros H.
  apply andb_prop in H as [H _]. apply andb_prop in H as [_ H].
  destruct (get t "role"); try discriminate.
  apply orb_prop in H as [H|H]; apply String.eqb_eq in H; subst; auto.
Qed.

Lemma z_history_turns (hv : JsValue) (turns : list JsValue) :
  z_history hv = Some (Some turns) -> forallb z_turn turns = true.
Proof.
  destruct hv; cbn; try discriminate.
  destruct (forallb z_turn items) eqn:H; [|discriminate].
  now intros [= <-].
Qed.

(** X11. Whatever the payload holds, a history that reaches the model
    client has passed the flow's schema: each of its turns is an object
    whose [role] is "user" or "model" and whose [parts] are objects with
    a string [text]. *)
Theorem history_at_the_model_fits_the_schema {World : Type}
        (client : ModelClient World) (request : CallableRequest) (w : World)
        (opts : GenerateOptions) (turns : list JsValue) (t : JsValue) :
  history opts = Some turns -> In t turns ->
  (In opts (model_calls (trace (snd (V3.callRpgAssistantV3 client request (start w))))) ->
   z_turn t = true
   /\ (get t "role" = JString "user" \/ get t "role" = JString "model"))
  /\
  (In opts (model_calls (trace (snd (V2.callRpgAssistantV2 client request (start w))))) ->
   z_turn t = true
   /\ (get t "role" = JString "user" \/ get t "role" = JString "model")).
Proof.
  intros Hh Ht.
  assert (Hgoal : forall input hv p,
             inputSchema (mkRaw (JString p) hv) = Some input ->
             conversationHistory input = Some turns ->
             z_turn t = true
             /\ (get t "role" = JString "user" \/ get t "role" = JString "model")).
  { intros input hv p Hin Hc.
    apply inputSchema_accepts_iff in Hin.
    destruct Hin as (p' & h & _ & Hz & ->). cbn in Hc. subst h.
    apply z_history_turns in Hz.
    assert (Hturn : z_turn t = true)
      by (eapply forallb_forall in Hz; eassumption).
    split; [exact Hturn|now apply z_turn_role]. }
  destruct (accepted_or_refused request) as [(a & p & Ha & Hp & Hne) | Hnot].
  - destruct request as [au d]. cbn [auth data] in *. subst au.
    destruct (V3_call_follows_flow client a d p w Hp Hne) as (_ & _ & T3).
    destruct (V2_call_follows_flow client a d p w Hp Hne) as (_ & _ & T2).
    cbv zeta in *.
    set (raw := mkRaw (JString p) (get d "conversationHistory")) in *.
    pose proof (run_ends_calls _ _ _ _ _ _ (V3_run_ends client raw (start w))) as C3.
    pose proof (run_ends_calls _ _ _ _ _ _ (V2_run_ends client raw (start w))) as C2.
    rewrite <- (model_calls_without_console (trace (snd (V3.callRpgAssistantV3 _ _ _)))).
    rewrite <- (model_calls_without_console (trace (snd (V2.callRpgAssistantV2 _ _ _)))).
    rewrite T3, T2, !model_calls_without_console.
    destruct (inputSchema raw) as [input|] eqn:Hin; rewrite C3, C2;
      cbn [model_calls trace start app In].
    + split; intros [<-|[]]; exact (Hgoal input _ p Hin Hh).
    + split; intros [].
  - destruct (refused_before_flow client request w Hnot)
      as [(_ & T3 & _) (_ & T2 & _)].
    cbv zeta in *.
    apply without_console_nil_calls in T3, T2.
    destruct T3 as [T3 _], T2 as [T2 _]. rewrite T3, T2.
    split; intros [].
Qed.

Lemma history_at_the_model_fits_the_schema_witness :
  let request := mkRequest (Some Samples.alice)
                   (Samples.payload (JString Samples.capital)
                      (JArray Samples.turns_ABC)) in
  let t := Samples.turn "model" "The Council of Nine." in
  z_turn t = true
  /\ (get t "role" = JString "user" \/ get t "role" = JString "model").
Proof.
  cbv zeta.
  apply (proj1 (history_at_the_model_fits_the_schema Samples.echo
                  (mkRequest (Some Samples.alice)
                     (Samples.payload (JString Samples.capital)
                        (JArray Samples.turns_ABC)))
                  0
                  {| prompt := V3.persona; history := Some Samples.turns_ABC;
                     config := fixed_config |}
                  Samples.turns_ABC
                  (Samples.turn "model" "The Council of Nine.")
                  eq_refl (or_intror (or_introl eq_refl)))).
  left. reflexivity.
Defined.

(* ----------------------------------------------------------------- *)
(** *** Start-up *)

(** X13. Start-up never stops on a missing key: it writes exactly one
    console record, at level error unless [GEMINI_API_KEY] is a non-empty
    string (an empty value counts as missing), and in every case goes on
    to configure Genkit with the value found and the fixed model name. *)
Theorem startup_reports_the_key_and_goes_on {World : Type}
        (key : option string) (w : World) :
  (let r := Startup.V3_initialize (World := World) key (start w) in
   fst r = Returned {| apiKey := key; model := "gemini-1.5-flash" |}
   /\ world (snd r) = w
   /\ length (trace (snd r)) = 1
   /\ (error_records (trace (snd r)) = []
       <-> exists c rest, key = Some (String c rest)))
  /\
  (let r := Startup.V2_initialize (World := World) key (start w) in
   fst r = Returned {| apiKey := key; model := "gemini-1.0-pro" |}
   /\ world (snd r) = w
   /\ length (trace (snd r)) = 1
   /\ (error_records (trace (snd r)) = []
       <-> exists c rest, key = Some (String c rest))).
Proof.
  destruct key as [[|c rest]|]; cbn; repeat split; eauto;
    try discriminate; intros (c' & rest' & H); discriminate.
Qed.

Lemma startup_reports_the_key_and_goes_on_witness :
  let r := Startup.V3_initialize (World := nat) (Some EmptyString) (start 0) in
  fst r = Returned {| apiKey := Some EmptyString; model := "gemini-1.5-flash" |}
  /\ error_records (trace (snd r))
     = [[arg_text "V3: CRITICAL FAILURE - GEMINI_API_KEY environment variable NOT found."]].
Proof.
  cbv zeta.
  split; [exact (proj1 (proj1 (startup_reports_the_key_and_goes_on
                                 (World := nat) (Some EmptyString) 0)))
         |reflexivity].
Defined.
